(** * The Kandji custom-app update pipeline (kandji/auto_app_updater.py)

    A shallow embedding of the update pipeline: manifest resolution
    ([get_manifest]), artifact transfer ([download_zip], [upload_to_s3]),
    the catalog client ([get_app_details], [update_app]) and the
    orchestrator ([main]).

    Python values are JSON values; dictionaries are insertion-ordered
    association lists; every network and file-system outcome is read from
    an explicit environment record, and the pipeline runs in a state and
    exception monad whose state keeps the issued requests, the log
    records, the files on disk and the local variable [zip_path]. *)

From Stdlib Require Import String Ascii List ZArith Bool Lia DecimalString.
Import ListNotations.
Open Scope string_scope.
Open Scope Z_scope.
Set Warnings "-register-all".

(** ** Python values *)

(** The values that [response.json()] produces.  [JNull] is Python's
    [None].  JSON numbers are kept to the integers. *)
Inductive json : Type :=
| JNull
| JBool (b : bool)
| JNum (n : Z)
| JStr (s : string)
| JArr (items : list json)
| JObj (fields : list (string * json)).

(** A [dict]: keys in insertion order. *)
Definition dict := list (string * json).

(** Exceptions, by class.  The first three are the members of the
    [requests.exceptions.RequestException] family the pipeline can meet:
    the error of [raise_for_status], the error of [response.json()], and
    whatever the call itself raises (connection, timeout, retries
    exhausted, invalid URL). *)
Inductive exn : Type :=
| HTTPError (status : Z)
| JSONDecodeError
| TransportError (detail : string)
| KandjiAPIError (detail : string)
| AttributeError (detail : string)
| TypeError (detail : string)
| KeyError (key : string)
| OSError (detail : string).

(** [isinstance(e, requests.exceptions.RequestException)] *)
Definition is_request_exception (e : exn) : bool :=
  match e with
  | HTTPError _ | JSONDecodeError | TransportError _ => true
  | _ => false
  end.

Inductive result (A : Type) : Type :=
| Ok (a : A)
| Raise (e : exn).
Arguments Ok {A} a.
Arguments Raise {A} e.

Module Py.

(** [type(v).__name__] *)
Definition type_name (v : json) : string :=
  match v with
  | JNull => "NoneType"
  | JBool _ => "bool"
  | JNum _ => "int"
  | JStr _ => "str"
  | JArr _ => "list"
  | JObj _ => "dict"
  end.

(** [bool(v)]: the truth value used by [if v], [not v] and [v or w]. *)
Definition truthy (v : json) : bool :=
  match v with
  | JNull => false
  | JBool b => b
  | JNum n => negb (n =? 0)
  | JStr s => negb (s =? "")%string
  | JArr items => match items with [] => false | _ => true end
  | JObj fields => match fields with [] => false | _ => true end
  end.

(** [a or b] *)
Definition or_ (a b : json) : json := if truthy a then a else b.

(** [d.get(k)] on a dict, as an option. *)
Fixpoint lookup (k : string) (d : dict) : option json :=
  match d with
  | [] => None
  | (k', v) :: d' => if (k' =? k)%string then Some v else lookup k d'
  end.

(** [d.get(k, default)] on a dict. *)
Definition dict_get (d : dict) (k : string) (default : json) : json :=
  match lookup k d with
  | Some v => v
  | None => default
  end.

(** [d[k] = v]: overwrite in place, or append a new key. *)
Fixpoint dict_set (d : dict) (k : string) (v : json) : dict :=
  match d with
  | [] => [(k, v)]
  | (k', v') :: d' =>
      if (k' =? k)%string then (k, v) :: d' else (k', v') :: dict_set d' k v
  end.

(** [v.get(k, default)] on any value: only a dict has the method. *)
Definition get (v : json) (k : string) (default : json) : result json :=
  match v with
  | JObj d => Ok (dict_get d k default)
  | _ => Raise (AttributeError
                  ("'" ++ type_name v ++ "' object has no attribute 'get'"))
  end.

(** [v[k]] with a string key. *)
Definition getitem (v : json) (k : string) : result json :=
  match v with
  | JObj d => match lookup k d with
              | Some x => Ok x
              | None => Raise (KeyError k)
              end
  | JArr _ => Raise (TypeError "list indices must be integers or slices, not str")
  | JStr _ => Raise (TypeError "string indices must be integers, not 'str'")
  | _ => Raise (TypeError
                  ("'" ++ type_name v ++ "' object is not subscriptable"))
  end.

(** The items a [for x in v] loop visits: the elements of a list, the
    characters of a string, the keys of a dict. *)
Definition iter (v : json) : result (list json) :=
  match v with
  | JArr items => Ok items
  | JStr s => Ok (map (fun c => JStr (String c "")) (list_ascii_of_string s))
  | JObj d => Ok (map (fun kv => JStr (fst kv)) d)
  | _ => Raise (TypeError ("'" ++ type_name v ++ "' object is not iterable"))
  end.

Definition bool_to_Z (b : bool) : Z := if b then 1 else 0.

(** [a == b].  A bool is an int ([True == 1]); lists compare element by
    element; dicts compare as maps. *)
Fixpoint eq (a b : json) {struct a} : bool :=
  match a, b with
  | JNull, JNull => true
  | JBool x, JBool y => Bool.eqb x y
  | JBool x, JNum n => bool_to_Z x =? n
  | JNum n, JBool y => n =? bool_to_Z y
  | JNum n, JNum m => n =? m
  | JStr s, JStr t => (s =? t)%string
  | JArr xs, JArr ys =>
      (fix all2 (xs ys : list json) {struct xs} : bool :=
         match xs, ys with
         | [], [] => true
         | x :: xs', y :: ys' => eq x y && all2 xs' ys'
         | _, _ => false
         end) xs ys
  | JObj xs, JObj ys =>
      (length xs =? length ys)%nat &&
      (fix sub (xs : list (string * json)) {struct xs} : bool :=
         match xs with
         | [] => true
         | (k, v) :: xs' =>
             match lookup k ys with
             | Some w => eq v w
             | None => false
             end && sub xs'
         end) xs
  | _, _ => false
  end.

(** [str(v)] for the scalar values; the text of a list or a dict is
    left to [repr], which the callers supply. *)
Definition str (repr : json -> string) (v : json) : string :=
  match v with
  | JNull => "None"
  | JBool true => "True"
  | JBool false => "False"
  | JNum n => NilZero.string_of_int (Z.to_int n)
  | JStr s => s
  | _ => repr v
  end.

End Py.

(** [s.replace(old, "")] for a non-empty [old]: [skip] counts the
    characters of a match still to be dropped. *)
Fixpoint remove_substring (old : string) (skip : nat) (s : string) : string :=
  match s with
  | EmptyString => EmptyString
  | String c s' =>
      match skip with
      | S k => remove_substring old k s'
      | O => if String.prefix old s
             then remove_substring old (String.length old - 1) s'
             else String c (remove_substring old 0 s')
      end
  end.

(** [s.replace(old, new)] for single characters. *)
Fixpoint replace_char (old new : ascii) (s : string) : string :=
  match s with
  | EmptyString => EmptyString
  | String c s' =>
      String (if Ascii.eqb c old then new else c) (replace_char old new s')
  end.

Definition newline : string := String (ascii_of_nat 10) EmptyString.

(** ** The world the pipeline runs in *)

Inductive method : Type := GET | POST | PATCH.

Inductive level : Type := DEBUG | INFO | WARNING | ERROR.

(** One constructor per [logger] call of the script, with the values the
    message interpolates.  [Summary] carries the finished summary text. *)
Inductive message : Type :=
| Starting
| FetchingManifest
| ManifestContent (manifest : json)
| FoundVersion (version : json)
| FailedToFetchManifest (e : exn)
| DownloadingZip (url : json)
| ZipDownloaded (path : string)
| FailedToDownloadZip (e : exn)
| FetchingDetails
| ErrorDetails (detail : json)
| ErrorResponse
| ServiceUnavailable (operation : string)
| ErrorDuring (operation : string) (status : Z)
| PreparingUpload
| UploadDetails (details : json)
| UploadingToS3
| UploadComplete
| WaitingForProcessing
| WaitComplete
| FailedToUpload (e : exn)
| UpdatingApp (version : json)
| UpdatePayload (payload : json)
| CurrentAppDetails (details : json)
| DryRunSummaryHeader
| UpdateSuccessful (version : json)
| UpdateResult (update_result : json)
| UpdateSummaryHeader
| Summary (text : string)
| FailedToUpdate (e : exn)
| CleaningUp
| FailedToCleanUp (path : string) (e : exn).

(** What a run leaves behind, in order: requests handed to [requests],
    log records, the settling wait, and the creation of the per-run log
    file by [logging.FileHandler]. *)
Inductive event : Type :=
| Request (m : method) (url : json) (payload : option json)
| Log (l : level) (msg : message)
| Sleep (seconds : Z)
| OpenLog (path : string).

Record State : Type := mkState {
  events : list event;        (* oldest first *)
  files : list string;        (* artifact files that exist on disk; the
                                 log file is the [OpenLog] event *)
  console_debug : bool;       (* level of the console handler *)
  zip_path : option string    (* the local variable of [main] *)
}.

(** The body of an HTTP response. *)
Inductive content : Type :=
| Empty
| NotJson
| Json (v : json).

(** What a call into [requests] comes back with: an exception of the
    call itself, or a response. *)
Inductive outcome : Type :=
| Refused (detail : string)
| Response (status : Z) (body : content).

(** The outcomes of the external calls of one run, one per call site. *)
Record Env : Type := mkEnv {
  manifest_fetch : outcome;      (* requests.get(MANIFEST_URL) *)
  details_fetch : outcome;       (* GET  /v1/library/custom-apps/{APP_ID} *)
  temp_file : result string;     (* tempfile.NamedTemporaryFile(delete=False) *)
  zip_fetch : outcome;           (* requests.get(url, stream=True) *)
  zip_stream : option exn;       (* iter_content / write: the error, if any *)
  upload_slot : outcome;         (* POST /v1/library/custom-apps/upload *)
  s3_post : outcome;             (* requests.post(s3_url, ...) *)
  patch : outcome;               (* PATCH /v1/library/custom-apps/{APP_ID} *)
  unlink_error : option exn;     (* os.unlink: the error, if any *)
  log_open : option exn;         (* logging.FileHandler(log_filename): the error, if any *)
  started : string               (* datetime.now().strftime('%Y%m%d_%H%M%S') *)
}.

(** The module-level settings read from the environment. *)
Record Config : Type := mkConfig {
  APP_ID : string;
  APP_NAME : string;
  MANIFEST_URL : string;
  APP_INSTALL_TYPE : string;
  APP_INSTALL_ENFORCEMENT : string;
  APP_SHOW_IN_SELF_SERVICE : bool;
  APP_SELF_SERVICE_CATEGORY_ID : option string;
  BASE_URL : string
}.

(** ** The monad: state, and exceptions that keep the state *)

Definition M (A : Type) : Type := State -> result A * State.

Definition ret {A} (a : A) : M A := fun s => (Ok a, s).

Definition raise {A} (e : exn) : M A := fun s => (Raise e, s).

Definition bind {A B} (m : M A) (f : A -> M B) : M B :=
  fun s => match m s with
           | (Ok a, s') => f a s'
           | (Raise e, s') => (Raise e, s')
           end.

(** [try: m  except Exception as e: handler(e)] *)
Definition try_except {A} (m : M A) (handler : exn -> M A) : M A :=
  fun s => match m s with
           | (Ok a, s') => (Ok a, s')
           | (Raise e, s') => handler e s'
           end.

(** [try: m  finally: cleanup], for a cleanup that handles its own errors *)
Definition try_finally {A} (m : M A) (cleanup : M unit) : M A :=
  fun s => match m s with
           | (r, s') => match cleanup s' with
                        | (Ok _, s'') => (r, s'')
                        | (Raise e, s'') => (Raise e, s'')
                        end
           end.

Definition lift {A} (r : result A) : M A := fun s => (r, s).

Declare Scope m_scope.
Delimit Scope m_scope with M.
Notation "x <- m ;; k" := (bind m (fun x => k))
  (at level 61, m at next level, right associativity) : m_scope.
Notation "m ;; k" := (bind m (fun _ => k))
  (at level 61, right associativity) : m_scope.

Definition rbind {A B} (r : result A) (f : A -> result B) : result B :=
  match r with
  | Ok a => f a
  | Raise e => Raise e
  end.

Declare Scope result_scope.
Delimit Scope result_scope with R.
Notation "'let*' x ':=' r 'in' k" := (rbind r (fun x => k))
  (at level 10, x name, r at level 100, k at level 200) : result_scope.

Definition emit (e : event) : M unit :=
  fun s => (Ok tt, mkState (events s ++ [e]) (files s) (console_debug s) (zip_path s)).

Definition log (l : level) (msg : message) : M unit := emit (Log l msg).

Definition set_zip_path (p : option string) : M unit :=
  fun s => (Ok tt, mkState (events s) (files s) (console_debug s) p).

Definition get_zip_path : M (option string) := fun s => (Ok (zip_path s), s).

(** [console_handler.setLevel(logging.DEBUG if debug_mode else logging.INFO)] *)
Definition set_console_level (debug_mode : bool) : M unit :=
  fun s => (Ok tt, mkState (events s) (files s) debug_mode (zip_path s)).

Definition file_exists (p : string) (fs : list string) : bool :=
  existsb (String.eqb p) fs.

Definition create_file (p : string) : M unit :=
  fun s => (Ok tt, mkState (events s)
                     (if file_exists p (files s) then files s else files s ++ [p])
                     (console_debug s) (zip_path s)).

Definition delete_file (p : string) : M unit :=
  fun s => (Ok tt, mkState (events s)
                     (filter (fun q => negb (String.eqb p q)) (files s))
                     (console_debug s) (zip_path s)).

Definition get_files : M (list string) := fun s => (Ok (files s), s).

(** ** Talking to [requests] *)

Record response : Type := mkResponse {
  status_code : Z;
  body : content
}.

(** Hand a request to [requests]; the outcome is the one the
    environment holds for this call site. *)
Definition send (m : method) (url : json) (payload : option json)
    (o : outcome) : M response :=
  (emit (Request m url payload) ;;
   match o with
   | Refused detail => raise (TransportError detail)
   | Response status b => ret (mkResponse status b)
   end)%M.

(** [response.raise_for_status()] *)
Definition raise_for_status (r : response) : M unit :=
  if (400 <=? status_code r) && (status_code r <? 600)
  then raise (HTTPError (status_code r))
  else ret tt.

(** [response.json()] *)
Definition response_json (r : response) : M json :=
  match body r with
  | Json v => ret v
  | _ => raise JSONDecodeError
  end.

Definition method_name (m : method) : string :=
  match m with
  | GET => "GET"
  | POST => "POST"
  | PATCH => "PATCH"
  end.

(** ** The pipeline *)

Section Pipeline.

Variable cfg : Config.
Variable env : Env.
(** [repr] of lists and dicts, for the f-strings *)
Variable repr : json -> string.

Local Open Scope m_scope.

(** Line 110: the name of the per-run log file. *)
Definition log_filename : string :=
  "kandji_" ++ replace_char "." "_" (APP_NAME cfg) ++ "_" ++ started env
  ++ ".log".

(** Lines 115-132.  [logging.FileHandler] opens the log file, and raises
    when it cannot; the console level is set after that. *)
Definition setup_logging (debug_mode : bool) : M unit :=
  match log_open env with
  | Some e => raise e
  | None =>
      emit (OpenLog log_filename) ;;
      set_console_level debug_mode
  end.

Definition handle_api_error (r : response) (operation : string) : M unit :=
  try_except
    (error_detail <- response_json r ;;
     log DEBUG (ErrorDetails error_detail))
    (fun _ => log DEBUG ErrorResponse) ;;
  (if status_code r =? 503
   then log WARNING (ServiceUnavailable operation)
   else log ERROR (ErrorDuring operation (status_code r))) ;;
  raise_for_status r.

Definition api_request (m : method) (endpoint : string)
    (o : outcome) (payload : option json) : M json :=
  let url := BASE_URL cfg ++ endpoint in
  r <- send m (JStr url) payload o ;;
  try_except
    (raise_for_status r ;;
     match body r with
     | Empty => ret JNull
     | _ => response_json r
     end)
    (fun e =>
       if is_request_exception e
       then handle_api_error r (method_name m ++ " " ++ endpoint) ;; raise e
       else raise e).

(** The [for release in ...] loop of [get_manifest]: [Some] at the
    [return] inside the loop, [None] when the loop runs out. *)
Fixpoint find_release (current_release : json) (releases : list json)
    : result (option (json * json)) :=
  match releases with
  | [] => Ok None
  | release :: rest =>
      (let* v := Py.get release "version" JNull in
       if Py.eq v current_release then
         let* update_to := Py.get release "updateTo" (JObj []) in
         let* download_url := Py.get update_to "url" JNull in
         let* version := Py.get release "version" JNull in
         Ok (Some (download_url, version))
       else find_release current_release rest)%R
  end.

(** Lines 194-202: from the parsed manifest to the pair returned. *)
Definition resolve (manifest : json) : result (json * json) :=
  (let* current_release := Py.get manifest "currentRelease" JNull in
   let* releases := Py.get manifest "releases" (JArr []) in
   let* items := Py.iter releases in
   let* found := find_release current_release items in
   match found with
   | Some r => Ok r
   | None => Raise (KandjiAPIError "Failed to find download URL in manifest")
   end)%R.

Definition get_manifest : M (json * json) :=
  log INFO FetchingManifest ;;
  try_except
    (r <- send GET (JStr (MANIFEST_URL cfg)) None (manifest_fetch env) ;;
     raise_for_status r ;;
     manifest <- response_json r ;;
     log DEBUG (ManifestContent manifest) ;;
     found <- lift (resolve manifest) ;;
     log INFO (FoundVersion (snd found)) ;;
     ret found)
    (fun e =>
       if is_request_exception e
       then log ERROR (FailedToFetchManifest e) ;; raise e
       else raise e).

Definition download_zip (url : json) : M string :=
  log INFO (DownloadingZip url) ;;
  try_except
    (name <- lift (temp_file env) ;;
     create_file name ;;
     r <- send GET url None (zip_fetch env) ;;
     raise_for_status r ;;
     match zip_stream env with
     | Some e => raise e
     | None => ret tt
     end ;;
     log DEBUG (ZipDownloaded name) ;;
     ret name)
    (fun e => log ERROR (FailedToDownloadZip e) ;; raise e).

Definition get_app_details : M json :=
  log INFO FetchingDetails ;;
  api_request GET ("/v1/library/custom-apps/" ++ APP_ID cfg)
    (details_fetch env) None.

(** [open(file_path, 'rb')] *)
Definition open_file (file_path : string) : M unit :=
  fs <- get_files ;;
  if file_exists file_path fs
  then ret tt
  else raise (OSError ("No such file or directory: " ++ file_path)).

Definition upload_to_s3 (file_path : string) : M json :=
  log INFO PreparingUpload ;;
  let upload_filename :=
    remove_substring ".app" 0 (APP_NAME cfg) ++ ".zip" in
  upload_details <-
    api_request POST "/v1/library/custom-apps/upload" (upload_slot env)
      (Some (JObj [("name", JStr upload_filename)])) ;;
  log DEBUG (UploadDetails upload_details) ;;
  try_except
    (s3_url <- lift (Py.getitem upload_details "post_url") ;;
     post_data <- lift (Py.getitem upload_details "post_data") ;;
     log INFO UploadingToS3 ;;
     open_file file_path ;;
     r <- send POST s3_url (Some post_data) (s3_post env) ;;
     raise_for_status r ;;
     log INFO UploadComplete ;;
     log INFO WaitingForProcessing ;;
     emit (Sleep 30) ;;
     log INFO WaitComplete ;;
     lift (Py.getitem upload_details "file_key"))
    (fun e => log ERROR (FailedToUpload e) ;; raise e).

(** [if current_settings.get(key): payload[key] = current_settings[key]] *)
Definition copy_if_set (current_settings : json) (key : string)
    (payload : dict) : result dict :=
  (let* v := Py.get current_settings key JNull in
   if Py.truthy v then
     let* x := Py.getitem current_settings key in
     Ok (Py.dict_set payload key x)
   else Ok payload)%R.

(** [for script_type in keys: ...] *)
Fixpoint copy_each (current_settings : json) (keys : list string)
    (payload : dict) : result dict :=
  match keys with
  | [] => Ok payload
  | script_type :: rest =>
      (let* payload' := copy_if_set current_settings script_type payload in
       copy_each current_settings rest payload')%R
  end.

Definition category_default : json :=
  match APP_SELF_SERVICE_CATEGORY_ID cfg with
  | Some c => JStr c
  | None => JNull
  end.

(** Lines 278-298: the payload [update_app] sends. *)
Definition update_payload (file_key current_settings : json) : result dict :=
  (let* install_type :=
     Py.get current_settings "install_type" (JStr (APP_INSTALL_TYPE cfg)) in
   let* install_enforcement :=
     Py.get current_settings "install_enforcement"
       (JStr (APP_INSTALL_ENFORCEMENT cfg)) in
   let* show_in_self_service :=
     Py.get current_settings "show_in_self_service"
       (JBool (APP_SHOW_IN_SELF_SERVICE cfg)) in
   let* active := Py.get current_settings "active" (JBool true) in
   let payload : dict :=
     [ ("name", JStr (APP_NAME cfg));
       ("file_key", file_key);
       ("install_type", install_type);
       ("install_enforcement", install_enforcement);
       ("show_in_self_service", show_in_self_service);
       ("active", active) ] in
   let* payload1 :=
     if Py.truthy current_settings then
       let* with_scripts :=
         copy_each current_settings
           ["audit_script"; "preinstall_script"; "postinstall_script"]
           payload in
       copy_if_set current_settings "unzip_location" with_scripts
     else Ok payload in
   let* shown := Py.getitem (JObj payload1) "show_in_self_service" in
   if Py.truthy shown then
     let* category :=
       Py.get current_settings "self_service_category_id" JNull in
     Ok (Py.dict_set payload1 "self_service_category_id"
           (Py.or_ category category_default))
   else Ok payload1)%R.

Definition update_app (file_key current_settings version : json) : M json :=
  log INFO (UpdatingApp version) ;;
  payload <- lift (update_payload file_key current_settings) ;;
  log DEBUG (UpdatePayload (JObj payload)) ;;
  api_request PATCH ("/v1/library/custom-apps/" ++ APP_ID cfg)
    (patch env) (Some (JObj payload)).

(** Lines 321-326: the summary f-strings. *)
Definition summary_text (dry_run : bool)
    (version zip_url current_app_details : json) : result string :=
  let str := Py.str repr in
  let summary :=
    (if dry_run then "DRY RUN: Would download" else "Downloaded")
    ++ " " ++ APP_NAME cfg ++ " version " ++ str version
    ++ " from: " ++ str zip_url in
  let summary :=
    summary ++ newline
    ++ (if dry_run then "DRY RUN: Would upload" else "Uploaded")
    ++ " to S3 and update" ++ (if negb dry_run then "d" else "")
    ++ " app with current settings" in
  let summary :=
    summary ++ newline ++ "App settings "
    ++ (if dry_run then "that would be" else "that were")
    ++ " maintained:" in
  (let* install_type :=
     Py.get current_app_details "install_type"
       (JStr (APP_INSTALL_TYPE cfg)) in
   let summary :=
     summary ++ newline ++ "         - Install type: " ++ str install_type in
   let* install_enforcement :=
     Py.get current_app_details "install_enforcement"
       (JStr (APP_INSTALL_ENFORCEMENT cfg)) in
   let summary :=
     summary ++ newline ++ "         - Install enforcement: "
     ++ str install_enforcement in
   let* show_in_self_service :=
     Py.get current_app_details "show_in_self_service"
       (JBool (APP_SHOW_IN_SELF_SERVICE cfg)) in
   Ok (summary ++ newline ++ "         - Show in Self Service: "
       ++ str show_in_self_service))%R.

(** [os.unlink(path)] *)
Definition unlink (path : string) : M unit :=
  match unlink_error env with
  | Some e => raise e
  | None =>
      fs <- get_files ;;
      if file_exists path fs
      then delete_file path
      else raise (OSError ("No such file or directory: " ++ path))
  end.

(** [if zip_path:] *)
Definition path_set (p : option string) : bool :=
  match p with
  | Some name => negb (name =? "")%string
  | None => false
  end.

(** The [finally] block of [main]. *)
Definition cleanup : M unit :=
  p <- get_zip_path ;;
  if path_set p then
    log INFO CleaningUp ;;
    match p with
    | Some name =>
        try_except (unlink name)
          (fun e => log WARNING (FailedToCleanUp name e))
    | None => ret tt
    end
  else ret tt.

(** The [try] block of [main]. *)
Definition main_body (dry_run : bool) : M bool :=
  found <- get_manifest ;;
  let zip_url := fst found in
  let version := snd found in
  (if negb (Py.truthy zip_url)
   then raise (KandjiAPIError "Failed to find download URL in manifest.")
   else ret tt) ;;
  current_app_details <- get_app_details ;;
  log DEBUG (CurrentAppDetails current_app_details) ;;
  summary <- lift (summary_text dry_run version zip_url current_app_details) ;;
  if dry_run then
    log INFO DryRunSummaryHeader ;;
    log INFO (Summary summary) ;;
    ret true
  else
    path <- download_zip zip_url ;;
    set_zip_path (Some path) ;;
    file_key <- upload_to_s3 path ;;
    update_result <- update_app file_key current_app_details version ;;
    log INFO (UpdateSuccessful version) ;;
    log DEBUG (UpdateResult update_result) ;;
    log INFO UpdateSummaryHeader ;;
    log INFO (Summary summary) ;;
    ret true.

Definition main (dry_run debug : bool) : M bool :=
  setup_logging debug ;;
  log INFO Starting ;;
  set_zip_path None ;;
  try_finally
    (try_except (main_body dry_run)
       (fun e => log ERROR (FailedToUpdate e) ;; ret false))
    cleanup.

End Pipeline.

(** The state a run starts from: nothing logged, the given files on disk. *)
Definition initial (fs : list string) : State := mkState [] fs false None.

(** ** Reading a trace *)

Definition is_request (m : method) (e : event) : bool :=
  match e with
  | Request m' _ _ =>
      match m, m' with
      | GET, GET | POST, POST | PATCH, PATCH => true
      | _, _ => false
      end
  | _ => false
  end.

Definition is_summary (e : event) : bool :=
  match e with
  | Log _ (Summary _) => true
  | _ => false
  end.

(** The requests of a trace, in order. *)
Definition requests (evs : list event) : list (method * json) :=
  flat_map (fun e => match e with
                     | Request m url _ => [(m, url)]
                     | _ => []
                     end) evs.

(** The summary texts of a trace, in order. *)
Definition summaries (evs : list event) : list string :=
  flat_map (fun e => match e with
                     | Log _ (Summary text) => [text]
                     | _ => []
                     end) evs.

(** ** Sample data *)

Module Sample.

Definition cfg : Config :=
  mkConfig "app-123" "Tool.app" "https://x/manifest.json"
    "package" "install_once" false (Some "local-cat")
    "https://acme.api.kandji.io/api".

(** The manifest of the specification's scenario. *)
Definition manifest : json :=
  JObj [ ("currentRelease", JStr "2.1.0");
         ("releases",
          JArr [ JObj [("version", JStr "2.0.0");
                       ("updateTo", JObj [("url", JStr "https://x/old.zip")])];
                 JObj [("version", JStr "2.1.0");
                       ("updateTo", JObj [("url", JStr "https://x/new.zip")])] ]) ].

(** The catalog entry of the specification's scenario. *)
Definition details : json :=
  JObj [ ("install_type", JStr "zip");
         ("show_in_self_service", JBool true);
         ("self_service_category_id", JStr "cat-1") ].

Definition slot : json :=
  JObj [ ("post_url", JStr "https://s3/bucket");
         ("post_data", JObj [("key", JStr "k")]);
         ("file_key", JStr "token-1") ].

(** A run in which every call succeeds. *)
Definition env : Env :=
  mkEnv (Response 200 (Json manifest))
        (Response 200 (Json details))
        (Ok "/tmp/tmpabc.zip")
        (Response 200 NotJson)
        None
        (Response 200 (Json slot))
        (Response 204 Empty)
        (Response 200 (Json (JObj [("id", JStr "app-123")])))
        None
        None
        "20241018_121609".

Definition repr (_ : json) : string := "<container>".

(** The manifest cannot be reached. *)
Definition offline_env : Env :=
  mkEnv (Refused "connection refused")
        (details_fetch env) (temp_file env) (zip_fetch env) (zip_stream env)
        (upload_slot env) (s3_post env) (patch env) (unlink_error env)
        (log_open env) (started env).

(** The artifact URL answers 404 after the temporary file was created. *)
Definition broken_download_env : Env :=
  mkEnv (manifest_fetch env) (details_fetch env) (temp_file env)
        (Response 404 NotJson) (zip_stream env)
        (upload_slot env) (s3_post env) (patch env) (unlink_error env)
        (log_open env) (started env).

(** The upload-slot request answers 500. *)
Definition slot_failure_env : Env :=
  mkEnv (manifest_fetch env) (details_fetch env) (temp_file env)
        (zip_fetch env) (zip_stream env)
        (Response 500 NotJson) (s3_post env) (patch env) (unlink_error env)
        (log_open env) (started env).

Definition env_with_manifest (m : json) : Env :=
  mkEnv (Response 200 (Json m))
        (details_fetch env) (temp_file env) (zip_fetch env) (zip_stream env)
        (upload_slot env) (s3_post env) (patch env) (unlink_error env)
        (log_open env) (started env).

(** The temporary file cannot be created. *)
Definition no_temp_env : Env :=
  mkEnv (manifest_fetch env) (details_fetch env)
        (Raise (OSError "No space left on device"))
        (zip_fetch env) (zip_stream env)
        (upload_slot env) (s3_post env) (patch env) (unlink_error env)
        (log_open env) (started env).

(** The catalog PATCH answers 503. *)
Definition patch_failure_env : Env :=
  mkEnv (manifest_fetch env) (details_fetch env) (temp_file env)
        (zip_fetch env) (zip_stream env)
        (upload_slot env) (s3_post env)
        (Response 503 NotJson) (unlink_error env)
        (log_open env) (started env).

(** The catalog read answers with an empty body. *)
Definition empty_details_env : Env :=
  mkEnv (manifest_fetch env) (Response 200 Empty) (temp_file env)
        (zip_fetch env) (zip_stream env)
        (upload_slot env) (s3_post env) (patch env) (unlink_error env)
        (log_open env) (started env).

(** The log file of the run cannot be created, as when the application
    name holds a path separator. *)
Definition unwritable_log_env : Env :=
  mkEnv (manifest_fetch env) (details_fetch env) (temp_file env)
        (zip_fetch env) (zip_stream env)
        (upload_slot env) (s3_post env) (patch env) (unlink_error env)
        (Some (OSError "No such file or directory")) (started env).

(** No release carries the current version. *)
Definition stale_manifest : json :=
  JObj [ ("currentRelease", JStr "3.0.0");
         ("releases",
          JArr [ JObj [("version", JStr "2.0.0");
                       ("updateTo", JObj [("url", JStr "https://x/old.zip")])];
                 JObj [("version", JStr "2.1.0");
                       ("updateTo", JObj [("url", JStr "https://x/new.zip")])] ]) ].

(** Two releases carry the current version. *)
Definition duplicate_manifest : json :=
  JObj [ ("currentRelease", JStr "2.1.0");
         ("releases",
          JArr [ JObj [("version", JStr "2.0.0");
                       ("updateTo", JObj [("url", JStr "https://x/old.zip")])];
                 JObj [("version", JStr "2.1.0");
                       ("updateTo", JObj [("url", JStr "https://x/first.zip")])];
                 JObj [("version", JStr "2.1.0");
                       ("updateTo", JObj [("url", JStr "https://x/second.zip")])] ]) ].

(** The current release has no download URL. *)
Definition urlless_manifest : json :=
  JObj [ ("currentRelease", JStr "2.1.0");
         ("releases",
          JArr [ JObj [("version", JStr "2.0.0");
                       ("updateTo", JObj [("url", JStr "https://x/old.zip")])];
                 JObj [("version", JStr "2.1.0");
                       ("updateTo", JObj [])] ]) ].

(** A catalog entry with an empty audit script and a setting the script
    does not know. *)
Definition details_with_empty_script : json :=
  JObj [ ("install_type", JStr "zip");
         ("audit_script", JStr "");
         ("restart", JBool true) ].

End Sample.

(** ** Vocabulary of the statements *)

Definition is_dict (v : json) : bool :=
  match v with
  | JObj _ => true
  | _ => false
  end.

(** [currentRelease] of a manifest ([None] when absent). *)
Definition current_of (manifest : json) : json :=
  match manifest with
  | JObj f => Py.dict_get f "currentRelease" JNull
  | _ => JNull
  end.

(** The release list of a manifest (empty when absent). *)
Definition releases_of (manifest : json) : list json :=
  match manifest with
  | JObj f => match Py.dict_get f "releases" (JArr []) with
              | JArr rels => rels
              | _ => []
              end
  | _ => []
  end.

(** [version] of a release ([None] when absent). *)
Definition version_of (release : json) : json :=
  match release with
  | JObj d => Py.dict_get d "version" JNull
  | _ => JNull
  end.

(** [updateTo.url] of a release ([None] when either key is absent). *)
Definition url_of (release : json) : json :=
  match release with
  | JObj d => match Py.dict_get d "updateTo" (JObj []) with
              | JObj u => Py.dict_get u "url" JNull
              | _ => JNull
              end
  | _ => JNull
  end.

(** The release's version equals the manifest's [currentRelease]. *)
Definition is_current (manifest release : json) : bool :=
  Py.eq (version_of release) (current_of manifest).

(** The manifest is a dict whose [releases], when present, is a list of
    dicts. *)
Definition has_release_list (manifest : json) : bool :=
  match manifest with
  | JObj f => match Py.dict_get f "releases" (JArr []) with
              | JArr rels => forallb is_dict rels
              | _ => false
              end
  | _ => false
  end.

(** The release is a dict whose [updateTo], when present, is a dict. *)
Definition has_update_to (release : json) : bool :=
  match release with
  | JObj d => is_dict (Py.dict_get d "updateTo" (JObj []))
  | _ => false
  end.

(** The documented shape of a release:
    [{version: string, updateTo: {url: string}}]. *)
Definition well_formed_release (release : json) : bool :=
  match release with
  | JObj d =>
      match Py.lookup "version" d, Py.lookup "updateTo" d with
      | Some (JStr _), Some (JObj u) =>
          match Py.lookup "url" u with
          | Some (JStr _) => true
          | _ => false
          end
      | _, _ => false
      end
  | _ => false
  end.

(** The documented shape of the manifest:
    [{currentRelease: string, releases: [release, ...]}]. *)
Definition well_formed_manifest (manifest : json) : bool :=
  match manifest with
  | JObj f =>
      match Py.lookup "currentRelease" f, Py.lookup "releases" f with
      | Some (JStr _), Some (JArr rels) => forallb well_formed_release rels
      | _, _ => false
      end
  | _ => false
  end.

(** [raise_for_status] lets the status through. *)
Definition status_ok (status : Z) : bool :=
  negb ((400 <=? status) && (status <? 600)).

(** The call raised, or came back with an error status. *)
Definition failed (o : outcome) : bool :=
  match o with
  | Refused _ => true
  | Response status _ => negb (status_ok status)
  end.

Definition resolution_error : exn :=
  KandjiAPIError "Failed to find download URL in manifest".

(** The settings [update_app] always sends, with the remote value when
    there is one. *)
Definition echoed_keys : list string :=
  ["install_type"; "install_enforcement"; "show_in_self_service"; "active"].

(** The settings [update_app] copies under an [if current_settings.get(key)]
    guard. *)
Definition guarded_keys : list string :=
  ["audit_script"; "preinstall_script"; "postinstall_script"; "unzip_location"].

(** Every key a payload can carry. *)
Definition payload_keys : list string :=
  ("name" :: "file_key" :: echoed_keys ++ guarded_keys
   ++ ["self_service_category_id"])%list.

(** A log record of the [finally] block. *)
Definition is_cleanup_log (e : event) : bool :=
  match e with
  | Log _ CleaningUp => true
  | Log _ (FailedToCleanUp _ _) => true
  | _ => false
  end.

(** The events that follow the first summary of a trace. *)
Fixpoint after_summary (d : list event) : list event :=
  match d with
  | [] => []
  | e :: rest => if is_summary e then rest else after_summary rest
  end.

(** "Every field of the remote configuration other than the artifact
    token is in the payload, unchanged." *)
Definition echoes_every_field (cfg : Config) : Prop :=
  forall (file_key : json) (cs p : dict) (k : string) (v : json),
    update_payload cfg file_key (JObj cs) = Ok p ->
    Py.lookup k cs = Some v ->
    k <> "file_key" ->
    Py.lookup k p = Some v.

(** "Every run emits its summary exactly once." *)
Definition summary_in_every_run (cfg : Config) (repr : json -> string) : Prop :=
  forall (env : Env) (dry_run debug : bool) (fs : list string),
    length (summaries (events (snd (main cfg env repr dry_run debug (initial fs)))))
    = 1%nat.

(** ** More of the script *)

(** The requests of a trace with what each one carried, in order. *)
Definition sent (evs : list event) : list (method * json * option json) :=
  flat_map (fun e => match e with
                     | Request m url payload => [(m, url, payload)]
                     | _ => []
                     end) evs.

(** The settling waits of a trace, in order. *)
Definition sleeps (evs : list event) : list Z :=
  flat_map (fun e => match e with
                     | Sleep n => [n]
                     | _ => []
                     end) evs.

(** The records a trace logged at a given level. *)
Definition logged_at (l : level) (evs : list event) : list message :=
  flat_map (fun e => match e, l with
                     | Log DEBUG msg, DEBUG => [msg]
                     | Log INFO msg, INFO => [msg]
                     | Log WARNING msg, WARNING => [msg]
                     | Log ERROR msg, ERROR => [msg]
                     | _, _ => []
                     end) evs.

(** The exceptions the handler of [main] reported, in order. *)
Definition failures (evs : list event) : list exn :=
  flat_map (fun e => match e with
                     | Log ERROR (FailedToUpdate x) => [x]
                     | _ => []
                     end) evs.

(** The events that follow the first report of the handler of [main]. *)
Fixpoint after_failure (d : list event) : list event :=
  match d with
  | [] => []
  | Log ERROR (FailedToUpdate _) :: rest => rest
  | _ :: rest => after_failure rest
  end.

(** The upload-slot request of [upload_to_s3]: the file name is the
    app name without [.app], with [.zip]. *)
Definition slot_request (cfg : Config) : method * json * option json :=
  (POST, JStr (BASE_URL cfg ++ "/v1/library/custom-apps/upload"),
   Some (JObj [("name",
                JStr (remove_substring ".app" 0 (APP_NAME cfg) ++ ".zip"))])).

(** ** Manifest resolution *)

Section Resolver.

Variable manifest : json.

Lemma find_release_skips (pre rest : list json) :
  forallb is_dict pre = true ->
  existsb (is_current manifest) pre = false ->
  find_release (current_of manifest) (pre ++ rest)
  = find_release (current_of manifest) rest.
Proof.
  induction pre as [|r pre IH]; intros Hd Hn; [reflexivity|].
  simpl in Hd, Hn.
  apply andb_true_iff in Hd as [Hr Hd].
  apply orb_false_iff in Hn as [Hc Hn].
  destruct r; try discriminate Hr.
  unfold is_current in Hc. simpl in Hc.
  simpl. rewrite Hc. apply IH; assumption.
Qed.

Lemma find_release_hits (r : json) (rest : list json) :
  is_current manifest r = true ->
  has_update_to r = true ->
  find_release (current_of manifest) (r :: rest)
  = Ok (Some (url_of r, version_of r)).
Proof.
  intros Hc Hu.
  destruct r; try discriminate Hu.
  unfold is_current in Hc. simpl in Hc, Hu.
  simpl. rewrite Hc. simpl.
  destruct (Py.dict_get fields "updateTo" (JObj [])); try discriminate Hu.
  reflexivity.
Qed.

Lemma find_release_none (rels : list json) :
  forallb is_dict rels = true ->
  existsb (is_current manifest) rels = false ->
  find_release (current_of manifest) rels = Ok None.
Proof.
  intros Hd Hn.
  rewrite <- (app_nil_r rels).
  rewrite find_release_skips by assumption.
  reflexivity.
Qed.

Lemma resolve_unfold :
  has_release_list manifest = true ->
  resolve manifest
  = match find_release (current_of manifest) (releases_of manifest) with
    | Ok (Some r) => Ok r
    | Ok None => Raise resolution_error
    | Raise e => Raise e
    end.
Proof.
  intros Hs.
  destruct manifest; try discriminate Hs.
  simpl in Hs. unfold resolve. simpl.
  destruct (Py.dict_get fields "releases" (JArr [])); try discriminate Hs.
  simpl.
  destruct (find_release (Py.dict_get fields "currentRelease" JNull) items)
    as [[r|]|e]; reflexivity.
Qed.

Lemma has_release_list_dicts :
  has_release_list manifest = true ->
  forallb is_dict (releases_of manifest) = true.
Proof.
  intros Hs.
  destruct manifest; try discriminate Hs.
  simpl in *.
  destruct (Py.dict_get fields "releases" (JArr [])); try discriminate Hs.
  assumption.
Qed.

(** The first release in list order whose version is the current one
    is the one returned. *)
Lemma resolve_first (pre post : list json) (r : json) :
  has_release_list manifest = true ->
  releases_of manifest = (pre ++ r :: post)%list ->
  existsb (is_current manifest) pre = false ->
  is_current manifest r = true ->
  has_update_to r = true ->
  resolve manifest = Ok (url_of r, version_of r).
Proof.
  intros Hs Hl Hn Hc Hu.
  pose proof (has_release_list_dicts Hs) as Hd.
  rewrite resolve_unfold by assumption.
  rewrite Hl in *.
  rewrite forallb_app in Hd. apply andb_true_iff in Hd as [Hd _].
  rewrite find_release_skips by assumption.
  rewrite find_release_hits by assumption.
  reflexivity.
Qed.

Lemma resolve_none :
  has_release_list manifest = true ->
  existsb (is_current manifest) (releases_of manifest) = false ->
  resolve manifest = Raise resolution_error.
Proof.
  intros Hs Hn.
  rewrite resolve_unfold by assumption.
  rewrite find_release_none; auto using has_release_list_dicts.
Qed.

Lemma first_current (rels : list json) (r : json) :
  In r rels ->
  is_current manifest r = true ->
  exists pre r' post,
    rels = (pre ++ r' :: post)%list /\
    existsb (is_current manifest) pre = false /\
    is_current manifest r' = true.
Proof.
  induction rels as [|x rels IH]; intros Hin Hc; [contradiction|].
  destruct (is_current manifest x) eqn:Hx.
  - exists [], x, rels. auto.
  - destruct Hin as [->|Hin]; [congruence|].
    destruct (IH Hin Hc) as (pre & r' & post & -> & Hn & Hc').
    exists (x :: pre), r', post. simpl. rewrite Hx. auto.
Qed.

Lemma well_formed_has_release_list :
  well_formed_manifest manifest = true ->
  has_release_list manifest = true.
Proof.
  intros Hw.
  destruct manifest; try discriminate Hw.
  simpl in *. unfold Py.dict_get.
  destruct (Py.lookup "currentRelease" fields) as [[]|]; try discriminate Hw.
  destruct (Py.lookup "releases" fields) as [[]|]; try discriminate Hw.
  rewrite forallb_forall in *.
  intros x Hx. specialize (Hw x Hx). destruct x; try discriminate Hw.
  reflexivity.
Qed.

Lemma well_formed_release_update_to (r : json) :
  well_formed_manifest manifest = true ->
  In r (releases_of manifest) ->
  has_update_to r = true.
Proof.
  intros Hw Hin.
  destruct manifest; try discriminate Hw.
  simpl in *. unfold Py.dict_get in Hin.
  destruct (Py.lookup "currentRelease" fields) as [[]|]; try discriminate Hw.
  destruct (Py.lookup "releases" fields) as [[]|]; try discriminate Hw.
  rewrite forallb_forall in Hw. specialize (Hw r Hin).
  destruct r; try discriminate Hw.
  simpl in *. unfold Py.dict_get.
  destruct (Py.lookup "version" fields0) as [[]|]; try discriminate Hw.
  destruct (Py.lookup "updateTo" fields0) as [[]|]; try discriminate Hw.
  reflexivity.
Qed.

End Resolver.

(** C6: in a well-formed manifest, the one release whose version equals
    [currentRelease] is the release whose download URL and version the
    resolver returns, and that version is [currentRelease]. *)
Theorem resolve_returns_current_release (manifest r : json) :
  well_formed_manifest manifest = true ->
  In r (releases_of manifest) ->
  is_current manifest r = true ->
  (forall r', In r' (releases_of manifest) ->
              is_current manifest r' = true -> r' = r) ->
  resolve manifest = Ok (url_of r, version_of r) /\
  version_of r = current_of manifest.
Proof.
  intros Hw Hin Hc Huniq.
  destruct (first_current manifest _ _ Hin Hc)
    as (pre & r' & post & Hl & Hn & Hc').
  assert (r' = r) as ->.
  { apply Huniq; [|assumption]. rewrite Hl. apply in_elt. }
  split.
  - eapply resolve_first; eauto.
    + now apply well_formed_has_release_list.
    + eapply well_formed_release_update_to; eauto.
  - (* both are strings, and [==] on strings is equality *)
    clear Hl Hn Hc' Huniq.
    destruct manifest as [| | | | |f]; try discriminate Hw.
    unfold is_current in Hc. simpl in *. unfold Py.dict_get in *.
    destruct (Py.lookup "currentRelease" f) as [[]|]; try discriminate Hw.
    destruct (Py.lookup "releases" f) as [[]|]; try discriminate Hw.
    rewrite forallb_forall in Hw. specialize (Hw r Hin).
    destruct r as [| | | | |d]; try discriminate Hw.
    simpl in *. unfold Py.dict_get in *.
    destruct (Py.lookup "version" d) as [[]|]; try discriminate Hw.
    simpl in Hc. apply String.eqb_eq in Hc. now subst.
Qed.

(** The manifest of the scenario resolves to the new release. *)
Lemma resolve_scenario :
  resolve Sample.manifest = Ok (JStr "https://x/new.zip", JStr "2.1.0").
Proof.
  apply (resolve_returns_current_release Sample.manifest
           (JObj [("version", JStr "2.1.0");
                  ("updateTo", JObj [("url", JStr "https://x/new.zip")])])).
  - reflexivity.
  - simpl. auto.
  - reflexivity.
  - intros r' Hin Hc. simpl in Hin.
    destruct Hin as [<-|[<-|[]]]; [discriminate Hc|reflexivity].
Defined.

(** C9: when two releases carry the current version, resolution
    succeeds with the download URL and version of the one that comes
    first in the list. *)
Theorem resolve_takes_first_of_duplicates
    (manifest r1 r2 : json) (pre mid post : list json) :
  has_release_list manifest = true ->
  releases_of manifest = (pre ++ r1 :: mid ++ r2 :: post)%list ->
  existsb (is_current manifest) pre = false ->
  is_current manifest r1 = true ->
  is_current manifest r2 = true ->
  has_update_to r1 = true ->
  resolve manifest = Ok (url_of r1, version_of r1).
Proof.
  intros Hs Hl Hn H1 _ Hu.
  exact (resolve_first manifest pre (mid ++ r2 :: post) r1 Hs Hl Hn H1 Hu).
Qed.

(** Of two releases at the current version, the first one wins. *)
Lemma resolve_duplicates_sample :
  resolve Sample.duplicate_manifest
  = Ok (JStr "https://x/first.zip", JStr "2.1.0").
Proof.
  apply (resolve_takes_first_of_duplicates Sample.duplicate_manifest
           (JObj [("version", JStr "2.1.0");
                  ("updateTo", JObj [("url", JStr "https://x/first.zip")])])
           (JObj [("version", JStr "2.1.0");
                  ("updateTo", JObj [("url", JStr "https://x/second.zip")])])
           [JObj [("version", JStr "2.0.0");
                  ("updateTo", JObj [("url", JStr "https://x/old.zip")])]]
           [] []); reflexivity.
Defined.

(** ** The update payload *)

Lemma lookup_dict_set_same (d : dict) (k : string) (v : json) :
  Py.lookup k (Py.dict_set d k v) = Some v.
Proof.
  induction d as [|[k' v'] d IH]; simpl.
  - now rewrite String.eqb_refl.
  - destruct (k' =? k)%string eqn:E; simpl.
    + now rewrite String.eqb_refl.
    + now rewrite E.
Qed.

Lemma lookup_dict_set_other (d : dict) (k k' : string) (v : json) :
  k <> k' ->
  Py.lookup k' (Py.dict_set d k v) = Py.lookup k' d.
Proof.
  intros Hne.
  apply String.eqb_neq in Hne.
  induction d as [|[k0 v0] d IH]; simpl.
  - now rewrite Hne.
  - destruct (k0 =? k)%string eqn:E; simpl.
    + apply String.eqb_eq in E. subst k0. now rewrite Hne.
    + now rewrite IH.
Qed.

Lemma dict_empty_or_truthy (cs : dict) :
  cs = [] \/ Py.truthy (JObj cs) = true.
Proof. destruct cs; auto. Qed.

Section Payload.

Variable cfg : Config.

(** What one guarded copy does to the payload, key by key. *)
Lemma copy_if_set_dict (cs : dict) (key : string) (p : dict) :
  exists p',
    copy_if_set (JObj cs) key p = Ok p' /\
    Py.lookup key p'
    = match Py.lookup key cs with
      | Some v => if Py.truthy v then Some v else Py.lookup key p
      | None => Py.lookup key p
      end /\
    forall k, k <> key -> Py.lookup k p' = Py.lookup k p.
Proof.
  unfold copy_if_set. simpl. unfold Py.dict_get.
  destruct (Py.lookup key cs) as [v|] eqn:E; simpl.
  - destruct (Py.truthy v) eqn:T; simpl.
    + eexists. split; [reflexivity|]. split.
      * apply lookup_dict_set_same.
      * intros k Hk. apply lookup_dict_set_other. congruence.
    + eexists. split; [reflexivity|]. split; auto.
  - eexists. split; [reflexivity|]. split; auto.
Qed.

(** The payload of a dict of settings: the six fixed keys, then the
    guarded copies, then the category when the visibility flag is set. *)
Lemma update_payload_dict (file_key : json) (cs : dict) :
  exists p1 : dict,
    update_payload cfg file_key (JObj cs)
    = Ok (if Py.truthy (Py.dict_get cs "show_in_self_service"
                          (JBool (APP_SHOW_IN_SELF_SERVICE cfg)))
          then Py.dict_set p1 "self_service_category_id"
                 (Py.or_ (Py.dict_get cs "self_service_category_id" JNull)
                    (category_default cfg))
          else p1) /\
    (forall k, In k guarded_keys ->
       Py.lookup k p1
       = match Py.lookup k cs with
         | Some v => if Py.truthy v then Some v else None
         | None => None
         end) /\
    (forall k, ~ In k guarded_keys ->
       Py.lookup k p1
       = Py.lookup k
           [ ("name", JStr (APP_NAME cfg));
             ("file_key", file_key);
             ("install_type",
              Py.dict_get cs "install_type" (JStr (APP_INSTALL_TYPE cfg)));
             ("install_enforcement",
              Py.dict_get cs "install_enforcement"
                (JStr (APP_INSTALL_ENFORCEMENT cfg)));
             ("show_in_self_service",
              Py.dict_get cs "show_in_self_service"
                (JBool (APP_SHOW_IN_SELF_SERVICE cfg)));
             ("active", Py.dict_get cs "active" (JBool true)) ]).
Proof.
  destruct (dict_empty_or_truthy cs) as [->|Htruthy].
  { (* an empty dict is falsy: nothing is copied, and nothing would be *)
    exists [ ("name", JStr (APP_NAME cfg)); ("file_key", file_key);
             ("install_type", JStr (APP_INSTALL_TYPE cfg));
             ("install_enforcement", JStr (APP_INSTALL_ENFORCEMENT cfg));
             ("show_in_self_service", JBool (APP_SHOW_IN_SELF_SERVICE cfg));
             ("active", JBool true) ].
    split; [|split].
    - unfold update_payload. simpl.
      destruct (APP_SHOW_IN_SELF_SERVICE cfg); reflexivity.
    - intros k Hk. simpl.
      destruct Hk as [<-|[<-|[<-|[<-|[]]]]]; reflexivity.
    - reflexivity. }
  set (base := [ ("name", JStr (APP_NAME cfg)); ("file_key", file_key);
                 ("install_type", _); ("install_enforcement", _);
                 ("show_in_self_service", _); ("active", _) ]).
  destruct (copy_if_set_dict cs "audit_script" base) as (pa & Ea & Ha & Oa).
  destruct (copy_if_set_dict cs "preinstall_script" pa) as (pb & Eb & Hb & Ob).
  destruct (copy_if_set_dict cs "postinstall_script" pb) as (pc & Ec & Hc & Oc).
  destruct (copy_if_set_dict cs "unzip_location" pc) as (pd & Ed & Hd & Od).
  assert (Hother : forall k, ~ In k guarded_keys ->
            Py.lookup k pd = Py.lookup k base).
  { intros k Hk. simpl in Hk.
    rewrite Od, Oc, Ob, Oa by intuition congruence. reflexivity. }
  exists pd. split; [|split]; try assumption.
  - unfold update_payload.
    cbn [Py.get rbind]. rewrite Htruthy.
    cbn [copy_each rbind].
    fold base. rewrite Ea. cbn [rbind]. rewrite Eb. cbn [rbind].
    rewrite Ec. cbn [rbind]. rewrite Ed. cbn [rbind].
    unfold Py.getitem. rewrite Hother by (simpl; intuition discriminate).
    cbn -[Py.truthy Py.dict_set Py.or_ Py.dict_get].
    destruct (Py.truthy (Py.dict_get cs "show_in_self_service" _));
      reflexivity.
  - intros k Hk. simpl in Hk.
    destruct Hk as [<-|[<-|[<-|[<-|[]]]]].
    + rewrite Od, Oc, Ob, Ha by discriminate.
      destruct (Py.lookup "audit_script" cs) as [v|]; [destruct (Py.truthy v)|];
        reflexivity.
    + rewrite Od, Oc, Hb, Oa by discriminate.
      destruct (Py.lookup "preinstall_script" cs) as [v|];
        [destruct (Py.truthy v)|]; reflexivity.
    + rewrite Od, Hc, Ob, Oa by discriminate.
      destruct (Py.lookup "postinstall_script" cs) as [v|];
        [destruct (Py.truthy v)|]; reflexivity.
    + rewrite Hd, Oc, Ob, Oa by discriminate.
      destruct (Py.lookup "unzip_location" cs) as [v|];
        [destruct (Py.truthy v)|]; reflexivity.
Qed.

(** C1, as stated, fails: an audit script that the remote configuration
    holds as the empty string is left out of the payload. *)
Lemma payload_drops_empty_audit_script :
  ~ echoes_every_field Sample.cfg.
Proof.
  intros H.
  specialize (H (JStr "token-1")
                [ ("install_type", JStr "zip");
                  ("audit_script", JStr "");
                  ("restart", JBool true) ]
                _ "audit_script" (JStr "") eq_refl eq_refl).
  assert (Hk : "audit_script" <> "file_key") by discriminate.
  specialize (H Hk). vm_compute in H. discriminate H.
Qed.

(** C1, amended: for every remote configuration that is a dict,
    [update_app] builds a payload in which the artifact token is the new
    one and the name is the configured one; install type, enforcement,
    visibility and the active flag carry the remote value whenever the
    remote configuration has one; each lifecycle script and the unzip
    location carries the remote value when that value is truthy
    (non-empty) and is left out otherwise; and no key outside
    [payload_keys] is sent. *)
Theorem update_payload_fields (file_key : json) (cs : dict) :
  exists p : dict,
    update_payload cfg file_key (JObj cs) = Ok p /\
    Py.lookup "file_key" p = Some file_key /\
    Py.lookup "name" p = Some (JStr (APP_NAME cfg)) /\
    (forall k v, In k echoed_keys ->
       Py.lookup k cs = Some v -> Py.lookup k p = Some v) /\
    (forall k v, In k guarded_keys ->
       Py.lookup k cs = Some v ->
       Py.lookup k p = if Py.truthy v then Some v else None) /\
    (forall k, ~ In k payload_keys -> Py.lookup k p = None).
Proof.
  destruct (update_payload_dict file_key cs) as (p1 & E & Hg & Ho).
  eexists. split; [exact E|].
  assert (Hcat : forall k, k <> "self_service_category_id" ->
            Py.lookup k
              (if Py.truthy (Py.dict_get cs "show_in_self_service"
                               (JBool (APP_SHOW_IN_SELF_SERVICE cfg)))
               then Py.dict_set p1 "self_service_category_id"
                      (Py.or_ (Py.dict_get cs "self_service_category_id" JNull)
                         (category_default cfg))
               else p1)
            = Py.lookup k p1).
  { intros k Hk. destruct (Py.truthy _); [|reflexivity].
    apply lookup_dict_set_other. congruence. }
  repeat split.
  - rewrite Hcat, Ho by (simpl; intuition discriminate). reflexivity.
  - rewrite Hcat, Ho by (simpl; intuition discriminate). reflexivity.
  - intros k v Hk Hv. simpl in Hk.
    destruct Hk as [<-|[<-|[<-|[<-|[]]]]];
      rewrite Hcat, Ho by (simpl; intuition discriminate);
      simpl; unfold Py.dict_get; rewrite Hv; reflexivity.
  - intros k v Hk Hv.
    rewrite Hcat.
    + rewrite (Hg k Hk), Hv. reflexivity.
    + simpl in Hk. intuition (subst; discriminate).
  - intros k Hk. simpl in Hk.
    rewrite Hcat by intuition congruence.
    rewrite Ho by (simpl; intuition congruence).
    cbn [Py.lookup].
    repeat match goal with
           | |- context [(?a =? k)%string] =>
               let E := fresh in
               destruct (a =? k)%string eqn:E;
               [apply String.eqb_eq in E; exfalso; intuition congruence|]
           end.
    reflexivity.
Qed.

(** C7: for every remote configuration that is a dict, the payload has
    the category key exactly when its visibility flag is truthy (for a
    boolean flag: exactly when it is [true]); and a truthy category held
    by the remote configuration is the one sent, whatever the local
    override.  The catalog entry of the scenario sends ["cat-1"]. *)
Theorem category_follows_visibility (file_key : json) :
  (forall cs : dict,
     exists (p : dict) (flag : json),
       update_payload cfg file_key (JObj cs) = Ok p /\
       Py.lookup "show_in_self_service" p = Some flag /\
       (Py.lookup "self_service_category_id" p <> None
        <-> Py.truthy flag = true) /\
       (forall b, flag = JBool b ->
          (Py.lookup "self_service_category_id" p <> None <-> b = true)) /\
       (forall c, Py.lookup "self_service_category_id" cs = Some c ->
          Py.truthy c = true ->
          Py.truthy flag = true ->
          Py.lookup "self_service_category_id" p = Some c)) /\
  (exists p : dict,
     update_payload cfg file_key Sample.details = Ok p /\
     Py.lookup "show_in_self_service" p = Some (JBool true) /\
     Py.lookup "self_service_category_id" p = Some (JStr "cat-1")).
Proof.
  split.
  - intros cs.
    destruct (update_payload_dict file_key cs) as (p1 & E & Hg & Ho).
    set (flag := Py.dict_get cs "show_in_self_service"
                   (JBool (APP_SHOW_IN_SELF_SERVICE cfg))) in *.
    assert (Hflag1 : Py.lookup "show_in_self_service" p1 = Some flag).
    { rewrite Ho by (simpl; intuition discriminate). reflexivity. }
    assert (Hcat1 : Py.lookup "self_service_category_id" p1 = None).
    { rewrite Ho by (simpl; intuition discriminate). reflexivity. }
    eexists. exists flag. split; [exact E|].
    destruct (Py.truthy flag) eqn:T.
    + split; [|split; [|split]].
      * rewrite lookup_dict_set_other by discriminate. exact Hflag1.
      * rewrite lookup_dict_set_same. split; [reflexivity|discriminate].
      * intros b ->. simpl in T. subst b.
        rewrite lookup_dict_set_same. split; [reflexivity|discriminate].
      * intros c Hc Tc _. rewrite lookup_dict_set_same.
        unfold Py.or_, Py.dict_get. rewrite Hc, Tc. reflexivity.
    + split; [|split; [|split]].
      * exact Hflag1.
      * rewrite Hcat1. split; [congruence|discriminate].
      * intros b ->. simpl in T. subst b.
        rewrite Hcat1. split; [congruence|discriminate].
      * intros c _ _ Hf. discriminate Hf.
  - unfold update_payload, Sample.details. simpl.
    eexists. split; [reflexivity|]. split; reflexivity.
Qed.

End Payload.

(** ** What each stage leaves in the trace *)

Lemma requests_app (d1 d2 : list event) :
  requests (d1 ++ d2) = (requests d1 ++ requests d2)%list.
Proof. apply flat_map_app. Qed.

Lemma summaries_app (d1 d2 : list event) :
  summaries (d1 ++ d2) = (summaries d1 ++ summaries d2)%list.
Proof. apply flat_map_app. Qed.

Lemma failures_app (d1 d2 : list event) :
  failures (d1 ++ d2) = (failures d1 ++ failures d2)%list.
Proof. apply flat_map_app. Qed.

Lemma file_exists_app (p : string) (fs gs : list string) :
  file_exists p (fs ++ gs) = file_exists p fs || file_exists p gs.
Proof. apply existsb_app. Qed.

Lemma file_exists_created (p : string) (fs : list string) :
  file_exists p (if file_exists p fs then fs else (fs ++ [p])%list) = true.
Proof.
  destruct (file_exists p fs) eqn:E; [exact E|].
  rewrite file_exists_app. simpl. rewrite String.eqb_refl.
  now rewrite orb_true_r.
Qed.

Lemma file_exists_kept (p q : string) (fs : list string) :
  file_exists q fs = true ->
  file_exists q (if file_exists p fs then fs else (fs ++ [p])%list) = true.
Proof.
  intros H. destruct (file_exists p fs); [exact H|].
  rewrite file_exists_app, H. reflexivity.
Qed.

Lemma file_exists_deleted (p : string) (fs : list string) :
  file_exists p (filter (fun q => negb (p =? q)%string) fs) = false.
Proof.
  induction fs as [|q fs IH]; [reflexivity|].
  simpl. destruct (p =? q)%string eqn:E; simpl; [exact IH|].
  rewrite E. exact IH.
Qed.

Lemma file_exists_filtered (q : string) (f : string -> bool)
    (fs : list string) :
  file_exists q (filter f fs) = true -> file_exists q fs = true.
Proof.
  induction fs as [|x fs IH]; simpl; [auto|].
  destruct (f x); simpl.
  - destruct (q =? x)%string; simpl; auto.
  - intros H. rewrite (IH H). apply orb_true_r.
Qed.

(** Unfold the monad down to state transformers. *)
Ltac unfold_m :=
  unfold bind, try_except, try_finally, ret, raise, lift, log, emit,
    set_zip_path, get_zip_path, setup_logging, set_console_level,
    create_file, delete_file,
    get_files, send, raise_for_status, response_json in *.

(** Split on the innermost scrutinee of a hypothesis. *)
Ltac case_step :=
  match goal with
  | H : context [match ?x with _ => _ end] |- _ =>
      lazymatch x with
      | context [match _ with _ => _ end] => fail
      | _ => destruct x eqn:?; simpl in H
      end
  end.

(** Read the final result and state off a finished run. *)
Ltac finish_run H :=
  inversion H; subst; clear H; simpl;
  rewrite <- ?app_assoc; simpl.

Section Footprints.

Variable cfg : Config.
Variable env : Env.

Lemma get_manifest_footprint (s : State) (r : result (json * json)) (s' : State) :
  get_manifest cfg env s = (r, s') ->
  exists d,
    events s' = (events s ++ d)%list /\
    files s' = files s /\
    zip_path s' = zip_path s /\
    requests d = [(GET, JStr (MANIFEST_URL cfg))] /\
    (summaries d = [] /\ failures d = []).
Proof.
  intros H. unfold get_manifest in H. unfold_m. simpl in H.
  repeat case_step; finish_run H; eexists; (split; [reflexivity|]); auto.
Qed.

(** With a manifest in hand, [get_manifest] returns what [resolve]
    returns. *)
Lemma get_manifest_resolves (s : State) (status : Z) (manifest : json) :
  manifest_fetch env = Response status (Json manifest) ->
  status_ok status = true ->
  fst (get_manifest cfg env s) = resolve manifest.
Proof.
  intros Hf Hs. unfold status_ok in Hs. apply negb_true_iff in Hs.
  unfold get_manifest. unfold_m. simpl. rewrite Hf. simpl. rewrite Hs. simpl.
  destruct (resolve manifest) as [found|e]; [reflexivity|].
  simpl. destruct (is_request_exception e); reflexivity.
Qed.

Lemma api_request_footprint (m : method) (endpoint : string) (o : outcome)
    (payload : option json) (s : State) (r : result json) (s' : State) :
  api_request cfg m endpoint o payload s = (r, s') ->
  exists d,
    events s' = (events s ++ d)%list /\
    files s' = files s /\
    zip_path s' = zip_path s /\
    requests d = [(m, JStr (BASE_URL cfg ++ endpoint))] /\
    (summaries d = [] /\ failures d = []) /\
    (failed o = true -> exists e, r = Raise e).
Proof.
  intros H. unfold api_request, handle_api_error in H. unfold_m. simpl in H.
  unfold failed, status_ok.
  repeat case_step; finish_run H; eexists; (split; [reflexivity|]);
    repeat split; auto; intros; try discriminate; eauto.
Qed.

Lemma get_app_details_footprint (s : State) (r : result json) (s' : State) :
  get_app_details cfg env s = (r, s') ->
  exists d,
    events s' = (events s ++ d)%list /\
    files s' = files s /\
    zip_path s' = zip_path s /\
    requests d
    = [(GET, JStr (BASE_URL cfg ++ "/v1/library/custom-apps/" ++ APP_ID cfg))] /\
    (summaries d = [] /\ failures d = []).
Proof.
  intros H. unfold get_app_details in H. unfold bind, log, emit in H.
  simpl in H.
  destruct (api_request_footprint _ _ _ _ _ _ _ H)
    as (d & E & F & Z & R & [S Q] & _).
  simpl in E, F, Z.
  exists (Log INFO FetchingDetails :: d).
  rewrite E, <- app_assoc. simpl. rewrite R, S, Q. repeat split; auto.
Qed.

Lemma download_zip_footprint (url : json) (s : State) (r : result string)
    (s' : State) :
  download_zip env url s = (r, s') ->
  exists d,
    events s' = (events s ++ d)%list /\
    zip_path s' = zip_path s /\
    (requests d = [] \/ requests d = [(GET, url)]) /\
    (summaries d = [] /\ failures d = []) /\
    (forall q, file_exists q (files s) = true ->
               file_exists q (files s') = true) /\
    (forall name, r = Ok name -> file_exists name (files s') = true).
Proof.
  intros H. unfold download_zip in H. unfold_m. simpl in H.
  repeat case_step; finish_run H; eexists; (split; [reflexivity|]);
    repeat split; auto; intros;
    try discriminate;
    try match goal with
        | E : Ok _ = Ok _ |- _ => inversion E; subst
        end;
    try assumption;
    rewrite file_exists_app; simpl;
    rewrite ?String.eqb_refl, ?orb_true_r;
    try reflexivity;
    match goal with
    | E : file_exists ?q _ = true |- _ => rewrite E; reflexivity
    end.
Qed.

Lemma upload_to_s3_footprint (file_path : string) (s : State)
    (r : result json) (s' : State) :
  upload_to_s3 cfg env file_path s = (r, s') ->
  exists d,
    events s' = (events s ++ d)%list /\
    files s' = files s /\
    zip_path s' = zip_path s /\
    ~ In PATCH (map fst (requests d)) /\
    ~ In GET (map fst (requests d)) /\
    (summaries d = [] /\ failures d = []) /\
    (failed (upload_slot env) = true -> exists e, r = Raise e).
Proof.
  intros H. unfold upload_to_s3 in H.
  unfold bind at 1 in H. unfold log, emit in H. simpl in H.
  unfold bind at 1 in H.
  match type of H with
  | context [api_request ?c ?m ?ep ?o ?pl ?st] =>
      destruct (api_request c m ep o pl st) as [[details|e] s1] eqn:Ha
  end;
    destruct (api_request_footprint _ _ _ _ _ _ _ Ha)
      as (d & E & F & Z & R & [S Q] & Hf);
    simpl in E, F, Z.
  - unfold open_file in H. unfold_m. simpl in H.
    repeat case_step; finish_run H;
      rewrite ?E, <- ?app_assoc; simpl;
      eexists; (split; [reflexivity|]);
      simpl; rewrite ?requests_app, ?summaries_app, ?failures_app, ?R, ?S, ?Q;
      simpl;
      repeat split; auto; try congruence;
      try (intuition discriminate);
      try (intros Hx; destruct (Hf Hx) as [e' He']; discriminate He').
  - finish_run H. rewrite E, <- app_assoc. simpl.
    eexists; (split; [reflexivity|]).
    simpl. rewrite ?requests_app, ?summaries_app, ?failures_app, ?R, ?S, ?Q.
    simpl.
    repeat split; auto; try (intuition discriminate); eauto.
Qed.

End Footprints.

Section MoreFootprints.

Variable cfg : Config.
Variable env : Env.

Lemma update_app_footprint (file_key current_settings version : json)
    (s : State) (r : result json) (s' : State) :
  update_app cfg env file_key current_settings version s = (r, s') ->
  exists d,
    events s' = (events s ++ d)%list /\
    files s' = files s /\
    zip_path s' = zip_path s /\
    ~ In GET (map fst (requests d)) /\
    ~ In POST (map fst (requests d)) /\
    (summaries d = [] /\ failures d = []).
Proof.
  intros H. unfold update_app in H.
  unfold bind at 1 in H. unfold log, emit in H. simpl in H.
  unfold bind at 1, lift in H.
  destruct (update_payload cfg file_key current_settings) as [payload|e].
  - unfold bind at 1 in H. simpl in H.
    apply api_request_footprint in H.
    destruct H as (d & E & F & Z & R & [S Q] & _).
    simpl in E, F, Z. rewrite <- !app_assoc in E. simpl in E.
    eexists. split; [exact E|].
    simpl. rewrite R, S, Q. simpl.
    repeat split; auto; intuition discriminate.
  - finish_run H. eexists. split; [reflexivity|].
    simpl. repeat split; auto.
Qed.

(** The [finally] block never raises and sends nothing; when [zip_path]
    was never assigned it touches no file, and when it was, it removes
    that file unless [os.unlink] itself fails. *)
Lemma cleanup_footprint (s : State) (r : result unit) (s' : State) :
  cleanup env s = (r, s') ->
  r = Ok tt /\
  exists d,
    events s' = (events s ++ d)%list /\
    zip_path s' = zip_path s /\
    requests d = [] /\
    (summaries d = [] /\ failures d = []) /\
    forallb is_cleanup_log d = true /\
    (zip_path s = None -> d = [] /\ files s' = files s) /\
    (forall q, file_exists q (files s') = true ->
               file_exists q (files s) = true) /\
    (forall name, zip_path s = Some name -> name <> "" ->
       unlink_error env = None ->
       file_exists name (files s') = false).
Proof.
  intros H. unfold cleanup, unlink, path_set in H. unfold_m. simpl in H.
  repeat case_step; finish_run H;
    (split; [try reflexivity; try (destruct u; reflexivity)|]);
    eexists;
    (split; [first [reflexivity | symmetry; apply app_nil_r]|]);
    repeat split; auto; intros; try discriminate; try congruence.
  - revert H. apply file_exists_filtered.
  - replace name with s0 by congruence. apply file_exists_deleted.
  - apply negb_false_iff, String.eqb_eq in Heqb. congruence.
Qed.

End MoreFootprints.

(** ** Runs of the orchestrator *)

Lemma after_summary_quiet (d1 d2 : list event) :
  summaries d1 = [] ->
  after_summary (d1 ++ d2) = after_summary d2.
Proof.
  induction d1 as [|e d1 IH]; intros H; [reflexivity|].
  destruct e as [m url payload|l msg|n|path]; simpl in *; auto.
  destruct msg; simpl in *; auto; discriminate H.
Qed.

Lemma after_failure_quiet (d1 d2 : list event) :
  failures d1 = [] ->
  after_failure (d1 ++ d2) = after_failure d2.
Proof.
  induction d1 as [|e d1 IH]; intros H; [reflexivity|].
  destruct e as [m url payload|l msg|n|path]; simpl in *; auto.
  destruct l; simpl in *; auto.
  destruct msg; simpl in *; auto; discriminate H.
Qed.

Lemma string_app_assoc (a b c : string) :
  ((a ++ b) ++ c = a ++ (b ++ c))%string.
Proof. induction a as [|x a IH]; simpl; [reflexivity|now rewrite IH]. Qed.

(** Case analysis of a run of [main], stage by stage. *)
Ltac walk_main H :=
  unfold main, main_body in H; unfold_m; simpl in H; repeat case_step;
  inversion H; subst; clear H;
  cbn [fst snd events files zip_path console_debug].

(** A run whose log file opened did not stop in [setup_logging]. *)
Ltac log_opened :=
  try match goal with
      | Ho : Some _ = None |- _ => discriminate Ho
      | Ho : log_open ?e = None, Hs : log_open ?e = Some _ |- _ =>
          rewrite Ho in Hs; discriminate Hs
      end.

(** Keep what each stage returned, in a form [footprints] leaves alone. *)
Ltac save_runs :=
  repeat match goal with
  | H : download_zip ?e ?u ?s = (?r, ?s') |- _ =>
      lazymatch goal with
      | _ : fst (download_zip e u s) = r |- _ => fail
      | _ =>
          assert (fst (download_zip e u s) = r) by (rewrite H; reflexivity);
          assert (snd (download_zip e u s) = s') by (rewrite H; reflexivity)
      end
  | H : upload_to_s3 ?c ?e ?p ?s = (?r, ?s') |- _ =>
      lazymatch goal with
      | _ : fst (upload_to_s3 c e p s) = r |- _ => fail
      | _ =>
          assert (fst (upload_to_s3 c e p s) = r) by (rewrite H; reflexivity)
      end
  end.

(** Replace each stage's run by what it left in the trace. *)
Ltac footprints :=
  repeat match goal with
  | H : get_manifest _ _ _ = _ |- _ =>
      apply get_manifest_footprint in H as (? & ? & ? & ? & ? & ?)
  | H : get_app_details _ _ _ = _ |- _ =>
      apply get_app_details_footprint in H as (? & ? & ? & ? & ? & ?)
  | H : download_zip _ _ _ = _ |- _ =>
      apply download_zip_footprint in H as (? & ? & ? & ? & ? & ? & ?)
  | H : upload_to_s3 _ _ _ _ = _ |- _ =>
      apply upload_to_s3_footprint in H as (? & ? & ? & ? & ? & ? & ? & ?)
  | H : update_app _ _ _ _ _ _ = _ |- _ =>
      apply update_app_footprint in H as (? & ? & ? & ? & ? & ? & ?)
  | H : cleanup _ _ = _ |- _ =>
      apply cleanup_footprint in H as (? & ? & ? & ? & ? & ? & ? & ? & ? & ?)
  end;
  cbn [fst snd events files zip_path console_debug] in *;
  repeat match goal with
         | H : summaries _ = [] /\ failures _ = [] |- _ => destruct H
         end;
  try match goal with
      | H : Raise _ = Ok _ |- _ => discriminate H
      | H : Ok _ = Raise _ |- _ => discriminate H
      end.

(** Express the final trace from the initial one. *)
Ltac chain_events :=
  repeat match goal with
  | H : events ?x = _ |- context [events ?x] => rewrite H
  end;
  rewrite <- ?app_assoc; simpl.

(** Rewrite with what is known of the requests and summaries of each
    stage. *)
Ltac known_traces :=
  repeat first
    [ rewrite requests_app
    | rewrite summaries_app
    | rewrite failures_app
    | match goal with
      | H : summaries ?d = _ |- context [summaries ?d] => rewrite H
      | H : requests ?d = _ |- context [requests ?d] => rewrite H
      | H : failures ?d = _ |- context [failures ?d] => rewrite H
      end
    | progress simpl ].

(** With an unassigned [zip_path] the [finally] block does nothing. *)
Ltac idle_cleanup :=
  repeat match goal with
  | H : zip_path ?a = zip_path ?b, Hn : zip_path ?b = None |- _ =>
      rewrite Hn in H
  end;
  repeat match goal with
  | H : ?z = None -> _ /\ _, Hn : ?z = None |- _ =>
      destruct (H Hn) as [-> ?]; clear H
  end.

Section Runs.

Variable cfg : Config.
Variable env : Env.
Variable repr : json -> string.

Lemma get_app_details_returns (s : State) (status : Z) (details : json) :
  details_fetch env = Response status (Json details) ->
  status_ok status = true ->
  fst (get_app_details cfg env s) = Ok details.
Proof.
  intros Hf Hs. unfold status_ok in Hs. apply negb_true_iff in Hs.
  unfold get_app_details, api_request. unfold_m. simpl.
  rewrite Hf. simpl. rewrite Hs. reflexivity.
Qed.

Lemma summary_text_dict (dry_run : bool) (version url : json) (d : dict) :
  exists text, summary_text cfg repr dry_run version url (JObj d) = Ok text.
Proof. unfold summary_text. simpl. eauto. Qed.

(** The wording of a dry-run summary: every action is something the
    run "would" do. *)
Lemma summary_text_dry (version url details : json) (text : string) :
  summary_text cfg repr true version url details = Ok text ->
  exists v u a b c : string,
    text
    = "DRY RUN: Would download " ++ APP_NAME cfg ++ " version " ++ v
      ++ " from: " ++ u ++ newline
      ++ "DRY RUN: Would upload to S3 and update app with current settings"
      ++ newline ++ "App settings that would be maintained:"
      ++ newline ++ "         - Install type: " ++ a
      ++ newline ++ "         - Install enforcement: " ++ b
      ++ newline ++ "         - Show in Self Service: " ++ c.
Proof.
  unfold summary_text. intros H.
  destruct details; try discriminate H.
  cbn [Py.get rbind negb] in H. inversion H; subst; clear H.
  exists (Py.str repr version), (Py.str repr url),
    (Py.str repr (Py.dict_get fields "install_type"
                    (JStr (APP_INSTALL_TYPE cfg)))),
    (Py.str repr (Py.dict_get fields "install_enforcement"
                    (JStr (APP_INSTALL_ENFORCEMENT cfg)))),
    (Py.str repr (Py.dict_get fields "show_in_self_service"
                    (JBool (APP_SHOW_IN_SELF_SERVICE cfg)))).
  repeat first [rewrite string_app_assoc | progress cbn [append]].
  reflexivity.
Qed.

Lemma download_zip_creates (url : json) (s : State) (path : string) :
  temp_file env = Ok path ->
  file_exists path (files (snd (download_zip env url s))) = true.
Proof.
  intros Ht. unfold download_zip. unfold_m. simpl. rewrite Ht. simpl.
  destruct (zip_fetch env) as [detail|status b]; simpl;
    [apply file_exists_created|].
  destruct ((400 <=? status) && (status <? 600)); simpl;
    [apply file_exists_created|].
  destruct (zip_stream env); simpl; apply file_exists_created.
Qed.

Lemma download_zip_fails (url : json) (s : State) :
  failed (zip_fetch env) = true \/ zip_stream env <> None ->
  exists e, fst (download_zip env url s) = Raise e.
Proof.
  intros Hf. unfold download_zip. unfold_m. simpl.
  destruct (temp_file env); simpl; [|eauto].
  destruct (zip_fetch env) as [detail|status b]; simpl; [eauto|].
  unfold failed, status_ok in Hf. rewrite negb_involutive in Hf.
  destruct ((400 <=? status) && (status <? 600)); simpl; [eauto|].
  destruct (zip_stream env); simpl; [eauto|].
  destruct Hf as [Hf|Hf]; [discriminate|congruence].
Qed.

(** C8, as stated, fails: a run that cannot reach the manifest ends
    without any summary. *)
Lemma failed_run_emits_no_summary :
  ~ summary_in_every_run Sample.cfg Sample.repr.
Proof.
  intros H.
  specialize (H Sample.offline_env false false []).
  vm_compute in H. discriminate H.
Qed.

(** C8, amended: in every run whose log file could be opened, [main]
    returns [True] or [False]; a run that returns [True] -- dry or real
    -- has emitted its summary exactly once, only log records of the
    cleanup follow it, and no failure was reported; a run that returns
    [False] has emitted no summary and has reported its failure in
    exactly one "Failed to update" ERROR record, which only log records
    of the cleanup follow.  When the log file cannot be opened, the
    exception of [setup_logging] leaves [main] before anything is
    logged. *)
Theorem summary_once_on_success (dry_run debug : bool) (s : State) :
  exists (r : result bool) (s' : State) (d : list event),
    main cfg env repr dry_run debug s = (r, s') /\
    events s' = (events s ++ d)%list /\
    match r with
    | Ok true =>
        exists text,
          summaries d = [text] /\
          forallb is_cleanup_log (after_summary d) = true /\
          failures d = []
    | Ok false =>
        summaries d = [] /\
        exists e,
          failures d = [e] /\
          forallb is_cleanup_log (after_failure d) = true
    | Raise e => log_open env = Some e /\ d = []
    end.
Proof.
  destruct (main cfg env repr dry_run debug s) as [r s'] eqn:H.
  walk_main H; footprints;
    do 3 eexists; (split; [reflexivity|]);
    chain_events;
    (split; [first [reflexivity | symmetry; apply app_nil_r]|]);
    cbn beta iota;
    first
      [ split; [assumption|reflexivity]
      | known_traces;
        split; [reflexivity|];
        eexists; (split; [reflexivity|]);
        repeat first [ rewrite after_failure_quiet by assumption
                     | progress cbn [after_failure app] ];
        assumption
      | known_traces;
        eexists; (split; [reflexivity|]);
        split; [|reflexivity];
        repeat first [ rewrite after_summary_quiet by assumption
                     | progress cbn [after_summary is_summary app] ];
        assumption ].
Qed.

(** The value of [get_manifest] does not depend on the state it runs
    in, only on the environment. *)
Lemma get_manifest_result (s s0 : State) :
  fst (get_manifest cfg env s) = fst (get_manifest cfg env s0).
Proof.
  unfold get_manifest. unfold_m. simpl.
  destruct (manifest_fetch env) as [detail|status b]; simpl; [reflexivity|].
  destruct ((400 <=? status) && (status <? 600)); simpl; [reflexivity|].
  destruct b as [| |v]; simpl; try reflexivity.
  destruct (resolve v) as [found|e]; simpl; [reflexivity|].
  destruct (is_request_exception e); reflexivity.
Qed.

Lemma get_app_details_result (s s0 : State) :
  fst (get_app_details cfg env s) = fst (get_app_details cfg env s0).
Proof.
  unfold get_app_details, api_request, handle_api_error. unfold_m. simpl.
  destruct (details_fetch env) as [detail|status b]; simpl; [reflexivity|].
  destruct ((400 <=? status) && (status <? 600)); simpl.
  - destruct b; simpl; destruct (status =? 503); reflexivity.
  - destruct b; simpl; try reflexivity; destruct (status =? 503); reflexivity.
Qed.

(** Keep what the two reads returned, in a form [footprints] leaves
    alone. *)
Ltac save_reads :=
  repeat match goal with
  | H : get_manifest ?c ?e ?s = (?r, ?s') |- _ =>
      lazymatch goal with
      | _ : fst (get_manifest c e s) = r |- _ => fail
      | _ => assert (fst (get_manifest c e s) = r) by (rewrite H; reflexivity)
      end
  | H : get_app_details ?c ?e ?s = (?r, ?s') |- _ =>
      lazymatch goal with
      | _ : fst (get_app_details c e s) = r |- _ => fail
      | _ =>
          assert (fst (get_app_details c e s) = r) by (rewrite H; reflexivity)
      end
  end.

(** Bring what a read returns in any state to what it returned in the
    run. *)
Ltac same_read Hg :=
  match type of Hg with
  | fst (get_manifest ?c ?e ?s0) = _ =>
      match goal with
      | Hs : fst (get_manifest c e ?sa) = _ |- _ =>
          rewrite (get_manifest_result s0 sa), Hs in Hg
      end
  | fst (get_app_details ?c ?e ?s0) = _ =>
      match goal with
      | Hs : fst (get_app_details c e ?sa) = _ |- _ =>
          rewrite (get_app_details_result s0 sa), Hs in Hg
      end
  end.

(** C3: a dry run creates and removes no file and sends nothing but the
    manifest GET and the catalog GET -- no download, no POST, no PATCH;
    once the manifest has resolved to a download URL it does send the
    catalog GET, and once the catalog read has returned a dict it
    returns [True]; a dry run that returns [True] has sent exactly the
    two GETs and has logged exactly one summary, which words the
    download, the upload and the update as what the run "would" do; any
    other dry run logs no summary.  (When the log file cannot be opened,
    [setup_logging] raises and nothing is sent or logged.) *)
Theorem dry_run_only_reads (debug : bool) (s : State) :
  exists (r : result bool) (s' : State) (d : list event),
    main cfg env repr true debug s = (r, s') /\
    events s' = (events s ++ d)%list /\
    files s' = files s /\
    match log_open env with
    | Some e => r = Raise e /\ d = []
    | None =>
        (requests d = [(GET, JStr (MANIFEST_URL cfg))] \/
         requests d
         = [(GET, JStr (MANIFEST_URL cfg));
            (GET, JStr (BASE_URL cfg ++ "/v1/library/custom-apps/"
                        ++ APP_ID cfg))]) /\
        (forall s0 found,
           fst (get_manifest cfg env s0) = Ok found ->
           Py.truthy (fst found) = true ->
           requests d
           = [(GET, JStr (MANIFEST_URL cfg));
              (GET, JStr (BASE_URL cfg ++ "/v1/library/custom-apps/"
                          ++ APP_ID cfg))] /\
           forall s1 details,
             fst (get_app_details cfg env s1) = Ok (JObj details) ->
             r = Ok true)
    end /\
    match r with
    | Ok true =>
        requests d
        = [(GET, JStr (MANIFEST_URL cfg));
           (GET, JStr (BASE_URL cfg ++ "/v1/library/custom-apps/"
                       ++ APP_ID cfg))] /\
        exists v u a b c : string,
          summaries d
          = [ "DRY RUN: Would download " ++ APP_NAME cfg ++ " version " ++ v
              ++ " from: " ++ u ++ newline
              ++ "DRY RUN: Would upload to S3 and update app with current settings"
              ++ newline ++ "App settings that would be maintained:"
              ++ newline ++ "         - Install type: " ++ a
              ++ newline ++ "         - Install enforcement: " ++ b
              ++ newline ++ "         - Show in Self Service: " ++ c ]
    | _ => summaries d = []
    end.
Proof.
  destruct (main cfg env repr true debug s) as [r s'] eqn:H.
  walk_main H; save_reads; footprints; idle_cleanup;
    do 3 eexists; (split; [reflexivity|]);
    chain_events;
    (split; [first [reflexivity | symmetry; apply app_nil_r]|]);
    (split; [congruence|]);
    cbn beta iota;
    known_traces.
  all: try solve [auto].
  all: split;
    [ split; [auto|];
      intros sa fd Hg Ht; same_read Hg;
      first
        [ (* the manifest is not resolved *)
          discriminate Hg
        | (* the manifest holds no download URL *)
          inversion Hg; subst; rewrite Ht in *; discriminate
        | (* the catalog is read *)
          split; [reflexivity|];
          intros sb dt Hd; same_read Hd;
          first
            [ discriminate Hd
            | reflexivity
            | inversion Hd; subst;
              match goal with
              | Hs : summary_text _ _ ?b ?v ?u (JObj ?x) = Raise _ |- _ =>
                  destruct (summary_text_dict b v u x) as [? Hok];
                  rewrite Hok in Hs; discriminate Hs
              end ] ]
    | first
        [ reflexivity
        | split; [reflexivity|];
          match goal with
          | E : summary_text _ _ true _ _ _ = Ok _ |- _ =>
              destruct (summary_text_dry _ _ _ _ E)
                as (tv & tu & ta & tb & tc & ->)
          end;
          exists tv, tu, ta, tb, tc; reflexivity ] ].
Qed.

(** C4: in every run, a PATCH is sent only when [download_zip] returned
    a path and [upload_to_s3], run on that path in the state the
    download left, returned a file key; and in a real run whose
    upload-slot request fails once the log file is open, [main] returns
    [False] and no PATCH is sent. *)
Theorem patch_only_after_upload (dry_run debug : bool) (s : State) :
  exists (r : result bool) (s' : State) (d : list event),
    main cfg env repr dry_run debug s = (r, s') /\
    events s' = (events s ++ d)%list /\
    (In PATCH (map fst (requests d)) ->
     exists (url : json) (path : string) (file_key : json) (s1 : State),
       fst (download_zip env url s1) = Ok path /\
       fst (upload_to_s3 cfg env path
              (snd (set_zip_path (Some path)
                      (snd (download_zip env url s1)))))
       = Ok file_key) /\
    (dry_run = false ->
     log_open env = None ->
     failed (upload_slot env) = true ->
     r = Ok false /\ ~ In PATCH (map fst (requests d))).
Proof.
  destruct (main cfg env repr dry_run debug s) as [r s'] eqn:H.
  walk_main H; save_runs; footprints;
    do 3 eexists; (split; [reflexivity|]);
    chain_events;
    (split; [first [reflexivity | symmetry; apply app_nil_r]|]);
    repeat match goal with
           | Hd : _ \/ _ |- _ => destruct Hd
           end;
    known_traces.
  all: split;
    [ intros Hin
    | intros Hdry Hopen Hfail;
      try discriminate Hdry;
      try discriminate Hopen;
      try match goal with
          | Hf : failed _ = true -> exists _, Ok _ = Raise _ |- _ =>
              destruct (Hf Hfail) as [? Habs]; discriminate Habs
          end;
      (split; [reflexivity|intros Hin]) ].
  all: try (repeat (rewrite ?map_app, ?in_app_iff in Hin; simpl in Hin);
            intuition discriminate).
  all: match goal with
       | Hdl : fst (download_zip env ?u ?s1) = Ok ?p,
         Hs : snd (download_zip env ?u ?s1) = ?s2,
         Hup : fst (upload_to_s3 cfg env ?p _) = Ok ?k |- _ =>
           exists u, p, k, s1; split; [exact Hdl|];
           rewrite Hs; exact Hup
       end.
Qed.

(** What [get_manifest] returned, from what the resolver returns. *)
Ltac manifest_known Hfetch Hstatus Hres :=
  match goal with
  | Hg : get_manifest ?c ?e ?s0 = (?res, _) |- _ =>
      let X := fresh "X" in
      pose proof (get_manifest_resolves c e s0 _ _ Hfetch Hstatus) as X;
      rewrite Hg in X; cbn [fst] in X; rewrite Hres in X;
      try discriminate X;
      try (inversion X; subst; clear X)
  end.

(** C5: when the manifest is fetched and no release in its list carries
    the current version, the resolver raises the resolution error, and
    the run -- dry or real, its log file open -- returns [False] having
    sent the manifest GET once and nothing else: no retry, no catalog
    read, no download. *)
Theorem unmatched_manifest_fails (dry_run debug : bool) (s : State)
    (status : Z) (manifest : json) :
  log_open env = None ->
  manifest_fetch env = Response status (Json manifest) ->
  status_ok status = true ->
  has_release_list manifest = true ->
  existsb (is_current manifest) (releases_of manifest) = false ->
  resolve manifest = Raise resolution_error /\
  (forall s0, fst (get_manifest cfg env s0) = Raise resolution_error) /\
  exists (s' : State) (d : list event),
    main cfg env repr dry_run debug s = (Ok false, s') /\
    events s' = (events s ++ d)%list /\
    requests d = [(GET, JStr (MANIFEST_URL cfg))] /\
    files s' = files s.
Proof.
  intros Hopen Hfetch Hstatus Hshape Hnone.
  pose proof (resolve_none manifest Hshape Hnone) as Hres.
  split; [exact Hres|]. split.
  { intros s0. rewrite <- Hres. eapply get_manifest_resolves; eauto. }
  destruct (main cfg env repr dry_run debug s) as [r s'] eqn:H.
  walk_main H; log_opened; manifest_known Hfetch Hstatus Hres;
    footprints; idle_cleanup;
    do 2 eexists; (split; [reflexivity|]);
    chain_events; (split; [reflexivity|]);
    known_traces; split; congruence.
Qed.

(** C10: when the current release has no download URL, [get_manifest]
    returns [None] for the URL together with the version, and the run,
    its log file open, returns [False] having sent the manifest GET and
    nothing else: no catalog read, no download, no upload. *)
Theorem missing_url_fails_before_catalog_read (dry_run debug : bool)
    (s : State) (status : Z) (manifest r : json) (pre post : list json) :
  log_open env = None ->
  manifest_fetch env = Response status (Json manifest) ->
  status_ok status = true ->
  has_release_list manifest = true ->
  releases_of manifest = (pre ++ r :: post)%list ->
  existsb (is_current manifest) pre = false ->
  is_current manifest r = true ->
  has_update_to r = true ->
  url_of r = JNull ->
  (forall s0, fst (get_manifest cfg env s0) = Ok (JNull, version_of r)) /\
  exists (s' : State) (d : list event),
    main cfg env repr dry_run debug s = (Ok false, s') /\
    events s' = (events s ++ d)%list /\
    requests d = [(GET, JStr (MANIFEST_URL cfg))] /\
    files s' = files s.
Proof.
  intros Hopen Hfetch Hstatus Hshape Hl Hn Hc Hu Hurl.
  pose proof (resolve_first manifest pre post r Hshape Hl Hn Hc Hu) as Hres.
  rewrite Hurl in Hres.
  split.
  { intros s0. rewrite <- Hres. eapply get_manifest_resolves; eauto. }
  destruct (main cfg env repr dry_run debug s) as [r0 s'] eqn:H.
  walk_main H; log_opened; manifest_known Hfetch Hstatus Hres;
    try discriminate;
    footprints; idle_cleanup;
    do 2 eexists; (split; [reflexivity|]);
    chain_events; (split; [reflexivity|]);
    known_traces; split; congruence.
Qed.

(** C2 fails on the code.  In a real run that opens its log file and
    reaches the download, once the temporary file is created and the download then fails,
    [download_zip] raises before [zip_path] is assigned, the [finally]
    block skips [os.unlink], and the run ends with the temporary file
    still on disk. *)
Theorem failed_download_leaves_temp_file (debug : bool) (s : State)
    (status status' : Z) (manifest url version : json) (details : dict)
    (path : string) :
  log_open env = None ->
  manifest_fetch env = Response status (Json manifest) ->
  status_ok status = true ->
  resolve manifest = Ok (url, version) ->
  Py.truthy url = true ->
  details_fetch env = Response status' (Json (JObj details)) ->
  status_ok status' = true ->
  temp_file env = Ok path ->
  failed (zip_fetch env) = true \/ zip_stream env <> None ->
  exists s' : State,
    main cfg env repr false debug s = (Ok false, s') /\
    zip_path s' = None /\
    file_exists path (files s') = true.
Proof.
  intros Hopen Hfetch Hstatus Hres Hurl Hdetails Hstatus' Htemp Hfail.
  destruct (main cfg env repr false debug s) as [r s'] eqn:H.
  walk_main H; log_opened; manifest_known Hfetch Hstatus Hres;
    cbn [fst snd] in *;
    try (rewrite Hurl in *; discriminate);
    try match goal with
        | Hg : get_app_details cfg env ?s0 = (?res, _) |- _ =>
            let X := fresh "X" in
            pose proof (get_app_details_returns s0 _ _ Hdetails Hstatus') as X;
            rewrite Hg in X; cbn [fst] in X;
            try discriminate X;
            try (inversion X; subst; clear X)
        end;
    try match goal with
        | Hs : summary_text cfg repr ?b ?v ?u (JObj ?d) = Raise _ |- _ =>
            destruct (summary_text_dict b v u d) as [? Ht];
            rewrite Ht in Hs; discriminate Hs
        end;
    try match goal with
        | Hd : download_zip env ?u ?s0 = (Ok _, _) |- _ =>
            destruct (download_zip_fails u s0 Hfail) as [? Hr];
            rewrite Hd in Hr; discriminate Hr
        end.
  all: match goal with
       | Hd : download_zip env ?u ?s0 = (Raise _, ?s1) |- _ =>
           pose proof (download_zip_creates u s0 path Htemp) as Hfile;
           rewrite Hd in Hfile; cbn [snd] in Hfile
       end.
  all: footprints; idle_cleanup.
  all: eexists; split; [reflexivity|]; split; congruence.
Qed.

(** X21: in a run whose log file opened, once [download_zip] has
    returned, [zip_path] holds the path, and the [finally] block removes
    that file on every later outcome, unless [os.unlink] itself fails. *)
Lemma assigned_zip_path_is_removed (dry_run debug : bool) (s : State) :
  log_open env = None ->
  exists (r : result bool) (s' : State),
    main cfg env repr dry_run debug s = (r, s') /\
    forall path,
      zip_path s' = Some path ->
      path <> "" ->
      unlink_error env = None ->
      file_exists path (files s') = false.
Proof.
  intros Hopen.
  destruct (main cfg env repr dry_run debug s) as [r s'] eqn:H.
  walk_main H; log_opened; footprints;
    do 2 eexists; (split; [reflexivity|]);
    intros path Hp Hne Hu;
    match goal with
    | Hrm : forall name, _ = Some name -> _ -> _ -> _ = false |- _ =>
        apply Hrm; auto; congruence
    end.
Qed.

End Runs.

(** ** The theorems on the sample runs *)

(** A manifest whose current version no release carries. *)
Lemma stale_manifest_run :
  resolve Sample.stale_manifest = Raise resolution_error /\
  (forall s0,
     fst (get_manifest Sample.cfg
            (Sample.env_with_manifest Sample.stale_manifest) s0)
     = Raise resolution_error) /\
  exists (s' : State) (d : list event),
    main Sample.cfg (Sample.env_with_manifest Sample.stale_manifest)
      Sample.repr false false (initial [])
    = (Ok false, s') /\
    events s' = (events (initial []) ++ d)%list /\
    requests d = [(GET, JStr (MANIFEST_URL Sample.cfg))] /\
    files s' = files (initial []).
Proof.
  apply (unmatched_manifest_fails Sample.cfg
           (Sample.env_with_manifest Sample.stale_manifest) Sample.repr
           false false (initial []) 200 Sample.stale_manifest);
    reflexivity.
Defined.

(** A manifest whose current release has no download URL. *)
Lemma urlless_manifest_run :
  (forall s0,
     fst (get_manifest Sample.cfg
            (Sample.env_with_manifest Sample.urlless_manifest) s0)
     = Ok (JNull, JStr "2.1.0")) /\
  exists (s' : State) (d : list event),
    main Sample.cfg (Sample.env_with_manifest Sample.urlless_manifest)
      Sample.repr false false (initial [])
    = (Ok false, s') /\
    events s' = (events (initial []) ++ d)%list /\
    requests d = [(GET, JStr (MANIFEST_URL Sample.cfg))] /\
    files s' = files (initial []).
Proof.
  apply (missing_url_fails_before_catalog_read Sample.cfg
           (Sample.env_with_manifest Sample.urlless_manifest) Sample.repr
           false false (initial []) 200 Sample.urlless_manifest
           (JObj [("version", JStr "2.1.0"); ("updateTo", JObj [])])
           [JObj [("version", JStr "2.0.0");
                  ("updateTo", JObj [("url", JStr "https://x/old.zip")])]]
           []);
    reflexivity.
Defined.

(** The artifact URL answers 404: the run fails and the temporary file
    stays. *)
Lemma broken_download_run :
  exists s' : State,
    main Sample.cfg Sample.broken_download_env Sample.repr false false
      (initial [])
    = (Ok false, s') /\
    zip_path s' = None /\
    file_exists "/tmp/tmpabc.zip" (files s') = true.
Proof.
  apply (failed_download_leaves_temp_file Sample.cfg
           Sample.broken_download_env Sample.repr false (initial [])
           200 200 Sample.manifest (JStr "https://x/new.zip") (JStr "2.1.0")
           [ ("install_type", JStr "zip");
             ("show_in_self_service", JBool true);
             ("self_service_category_id", JStr "cat-1") ]
           "/tmp/tmpabc.zip");
    try reflexivity.
  left. reflexivity.
Defined.

(** The scenario of the specification: the upload-slot request answers
    500; the run returns [False], sends no PATCH, and removes the
    temporary file. *)
Lemma slot_failure_run :
  main Sample.cfg Sample.slot_failure_env Sample.repr false false (initial [])
  = (Ok false,
     snd (main Sample.cfg Sample.slot_failure_env Sample.repr false false
            (initial []))) /\
  ~ In PATCH
      (map fst
         (requests
            (events
               (snd (main Sample.cfg Sample.slot_failure_env Sample.repr
                       false false (initial [])))))) /\
  files (snd (main Sample.cfg Sample.slot_failure_env Sample.repr false false
                (initial [])))
  = [].
Proof.
  destruct (patch_only_after_upload Sample.cfg Sample.slot_failure_env
              Sample.repr false false (initial []))
    as (r & s' & d & Hm & He & _ & Hf).
  destruct (Hf eq_refl eq_refl eq_refl) as [-> Hno].
  rewrite Hm. cbn [snd]. split; [reflexivity|]. split.
  - rewrite He. exact Hno.
  - vm_compute in Hm. inversion Hm. reflexivity.
Defined.

(** In that run the download had returned: the temporary file is gone
    when [main] ends. *)
Lemma slot_failure_cleanup :
  zip_path (snd (main Sample.cfg Sample.slot_failure_env Sample.repr false
                   false (initial [])))
  = Some "/tmp/tmpabc.zip" /\
  file_exists "/tmp/tmpabc.zip"
    (files (snd (main Sample.cfg Sample.slot_failure_env Sample.repr false
                   false (initial []))))
  = false.
Proof.
  destruct (assigned_zip_path_is_removed Sample.cfg Sample.slot_failure_env
              Sample.repr false false (initial []) eq_refl)
    as (r & s' & Hm & Hrm).
  rewrite Hm. cbn [snd].
  assert (Hz : zip_path s' = Some "/tmp/tmpabc.zip")
    by (vm_compute in Hm; inversion Hm; reflexivity).
  split; [exact Hz|].
  apply Hrm; [exact Hz | discriminate | reflexivity].
Defined.


(** * Further properties of the script *)

(** ** The resolver on arbitrary manifests *)

Lemma find_release_sound (cur : json) (rels : list json) (u v : json) :
  find_release cur rels = Ok (Some (u, v)) ->
  exists r,
    In r rels /\ is_dict r = true /\ has_update_to r = true /\
    url_of r = u /\ version_of r = v /\ Py.eq v cur = true.
Proof.
  induction rels as [|r rels IH]; intros H; [discriminate H|].
  destruct r as [| | | | |d]; try discriminate H.
  simpl in H.
  destruct (Py.eq (Py.dict_get d "version" JNull) cur) eqn:E.
  - destruct (Py.dict_get d "updateTo" (JObj [])) as [| | | | |upd] eqn:U;
      try discriminate H.
    simpl in H. inversion H; subst; clear H.
    exists (JObj d). simpl. rewrite U. auto 10.
  - destruct (IH H) as (r & Hin & Hr).
    exists r. split; [right; exact Hin|exact Hr].
Qed.

Lemma find_release_none_inv (cur : json) (rels : list json) :
  find_release cur rels = Ok None ->
  existsb (fun r => Py.eq (version_of r) cur) rels = false.
Proof.
  induction rels as [|r rels IH]; intros H; [reflexivity|].
  destruct r as [| | | | |d]; try discriminate H.
  simpl in H. simpl.
  destruct (Py.eq (Py.dict_get d "version" JNull) cur) eqn:E.
  - destruct (Py.dict_get d "updateTo" (JObj [])); discriminate H.
  - exact (IH H).
Qed.

Lemma find_release_raises (cur : json) (rels : list json) (e : exn) :
  find_release cur rels = Raise e ->
  exists detail, e = AttributeError detail.
Proof.
  induction rels as [|r rels IH]; intros H; [discriminate H|].
  destruct r as [| | | | |d]; simpl in H;
    try (inversion H; eauto; fail).
  destruct (Py.eq (Py.dict_get d "version" JNull) cur).
  - destruct (Py.dict_get d "updateTo" (JObj [])); simpl in H;
      inversion H; eauto.
  - exact (IH H).
Qed.

(** X1: whatever the resolver returns is the download URL and the
    version of a release of the manifest's list whose version equals
    [currentRelease]; no well-formedness of the manifest is needed. *)
Theorem resolve_sound (manifest u v : json) :
  resolve manifest = Ok (u, v) ->
  exists r,
    In r (releases_of manifest) /\
    is_current manifest r = true /\
    url_of r = u /\ version_of r = v.
Proof.
  unfold resolve. intros H.
  destruct manifest as [| | | | |f]; try discriminate H.
  simpl in H.
  destruct (Py.dict_get f "releases" (JArr [])) as [| | |str|items|d] eqn:R;
    try discriminate H; simpl in H.
  - (* a string: its characters have no [get] *)
    destruct (find_release _ _) as [[[u' v']|]|e] eqn:F; try discriminate H.
    destruct (find_release_sound _ _ _ _ F) as (r & Hin & Hd & _).
    apply in_map_iff in Hin as (c & <- & _). discriminate Hd.
  - destruct (find_release _ items) as [[[u' v']|]|e] eqn:F;
      try discriminate H.
    inversion H; subst; clear H.
    destruct (find_release_sound _ _ _ _ F) as (r & Hin & _ & _ & Hu & Hv & E).
    exists r. unfold is_current. simpl. rewrite R, Hv. auto.
  - (* a dict: its keys have no [get] *)
    destruct (find_release _ _) as [[[u' v']|]|e] eqn:F; try discriminate H.
    destruct (find_release_sound _ _ _ _ F) as (r & Hin & Hd & _).
    apply in_map_iff in Hin as (c & <- & _). discriminate Hd.
Qed.

Lemma resolve_sound_sample :
  exists r,
    In r (releases_of Sample.manifest) /\
    is_current Sample.manifest r = true /\
    url_of r = JStr "https://x/new.zip" /\ version_of r = JStr "2.1.0".
Proof.
  apply (resolve_sound Sample.manifest). reflexivity.
Defined.

(** X2: the resolution error is raised only when no release of the list
    carries the current version. *)
Theorem resolution_error_means_no_match (manifest : json) :
  resolve manifest = Raise resolution_error ->
  existsb (is_current manifest) (releases_of manifest) = false.
Proof.
  unfold resolve. intros H.
  destruct manifest as [| | | | |f]; try discriminate H.
  simpl in H. simpl.
  destruct (Py.dict_get f "releases" (JArr [])) as [| | |str|items|d] eqn:R;
    try discriminate H; try reflexivity.
  simpl in H.
  destruct (find_release _ items) as [[[u' v']|]|e] eqn:F.
  - discriminate H.
  - exact (find_release_none_inv _ _ F).
  - destruct (find_release_raises _ _ _ F) as [detail ->]. discriminate H.
Qed.

Lemma resolution_error_sample :
  existsb (is_current Sample.stale_manifest)
    (releases_of Sample.stale_manifest) = false.
Proof.
  apply (resolution_error_means_no_match Sample.stale_manifest). reflexivity.
Defined.

(** The exceptions of the resolver are never of the [requests] family. *)
Lemma resolve_raises (manifest : json) (e : exn) :
  resolve manifest = Raise e ->
  is_request_exception e = false.
Proof.
  unfold resolve. intros H.
  destruct manifest as [| | | | |f]; try (inversion H; reflexivity).
  simpl in H.
  destruct (Py.dict_get f "releases" (JArr [])) as [| | |str|items|d];
    try (inversion H; reflexivity); simpl in H.
  all: destruct (find_release _ _) as [[[u' v']|]|e'] eqn:F;
    try discriminate H; try (inversion H; reflexivity).
  all: destruct (find_release_raises _ _ _ F) as [detail ->];
    inversion H; reflexivity.
Qed.

(** X3: a manifest that is not a dict makes the resolver raise
    [AttributeError]; a release list that is [None], a bool or a number
    makes it raise [TypeError]; and an [updateTo] of the current release
    that is not a dict makes it raise [AttributeError]: none of these is
    the resolution error. *)
Theorem resolve_malformed (manifest : json) :
  (is_dict manifest = false ->
   exists detail, resolve manifest = Raise (AttributeError detail)) /\
  (forall f v,
     manifest = JObj f ->
     Py.dict_get f "releases" (JArr []) = v ->
     (v = JNull \/ (exists b, v = JBool b) \/ (exists n, v = JNum n)) ->
     exists detail, resolve manifest = Raise (TypeError detail)) /\
  (forall pre r post,
     has_release_list manifest = true ->
     releases_of manifest = (pre ++ r :: post)%list ->
     existsb (is_current manifest) pre = false ->
     is_current manifest r = true ->
     has_update_to r = false ->
     exists detail, resolve manifest = Raise (AttributeError detail)).
Proof.
  split; [|split].
  - intros Hd. unfold resolve.
    destruct manifest; try discriminate Hd; simpl; eauto.
  - intros f v -> Hv Hcases. unfold resolve. simpl. rewrite Hv.
    destruct Hcases as [->|[[b ->]|[n ->]]]; simpl; eauto.
  - intros pre r post Hs Hl Hn Hc Hu.
    pose proof (has_release_list_dicts manifest Hs) as Hd.
    rewrite resolve_unfold by assumption.
    rewrite Hl in *.
    rewrite forallb_app in Hd. apply andb_true_iff in Hd as [Hpre Hrest].
    rewrite find_release_skips by assumption.
    simpl in Hrest. apply andb_true_iff in Hrest as [Hr _].
    destruct r as [| | | | |d]; try discriminate Hr.
    unfold is_current in Hc. simpl in Hc, Hu. simpl. rewrite Hc. simpl.
    destruct (Py.dict_get d "updateTo" (JObj [])); try discriminate Hu;
      simpl; eauto.
Qed.

(** ** The API client *)

Section Client.

Variable cfg : Config.
Variable env : Env.

(** X4: [api_request] returns normally exactly when the call came back
    with a status [raise_for_status] lets through and a body that is
    empty or JSON; the value is [None] for the empty body and the parsed
    body otherwise. *)
Theorem api_request_returns (m : method) (endpoint : string) (o : outcome)
    (payload : option json) (s : State) (v : json) :
  fst (api_request cfg m endpoint o payload s) = Ok v <->
  exists status b,
    o = Response status b /\ status_ok status = true /\
    ((b = Empty /\ v = JNull) \/ b = Json v).
Proof.
  unfold api_request, handle_api_error, status_ok. unfold_m. simpl.
  split.
  - intros H. destruct o as [detail|status b]; simpl in H; [discriminate H|].
    exists status, b.
    destruct ((400 <=? status) && (status <? 600)); simpl in H.
    + destruct b; simpl in H;
        destruct (status =? 503); discriminate H.
    + destruct b; simpl in H.
      * inversion H. auto.
      * destruct (status =? 503); discriminate H.
      * inversion H. auto.
  - intros (status & b & -> & Hs & Hb).
    apply negb_true_iff in Hs. simpl. rewrite Hs. simpl.
    destruct Hb as [[-> ->]| ->]; reflexivity.
Qed.

(** X5: when a response came back and [api_request] raises, the
    exception is [HTTPError] for an error status and the JSON decoding
    error otherwise, and the failure is logged by one DEBUG record
    followed by one record at WARNING level for a 503 and at ERROR level
    for every other status. *)
Theorem api_request_failure_log (m : method) (endpoint : string)
    (status : Z) (b : content) (payload : option json) (s : State)
    (e : exn) :
  fst (api_request cfg m endpoint (Response status b) payload s) = Raise e ->
  e = (if status_ok status then JSONDecodeError else HTTPError status) /\
  exists dbg msg,
    events (snd (api_request cfg m endpoint (Response status b) payload s))
    = (events s
       ++ [ Request m (JStr (BASE_URL cfg ++ endpoint)) payload;
            Log DEBUG dbg;
            Log (if status =? 503 then WARNING else ERROR) msg ])%list.
Proof.
  unfold api_request, handle_api_error, status_ok. unfold_m. simpl.
  destruct ((400 <=? status) && (status <? 600)) eqn:E; simpl.
  - destruct b; simpl; destruct (status =? 503); simpl;
      intros H; inversion H; subst; rewrite ?E; simpl;
      rewrite <- ?app_assoc; simpl; eauto.
  - destruct b; simpl; try discriminate;
      destruct (status =? 503); simpl; rewrite ?E; simpl;
      intros H; inversion H; subst;
      rewrite <- ?app_assoc; simpl; eauto.
Qed.

(** X6: [download_zip] returns a path exactly when the temporary file
    could be created, the artifact GET came back without an error
    status, and the stream was written to the end; the path is the
    temporary file's. *)
Theorem download_zip_returns (url : json) (s : State) (path : string) :
  fst (download_zip env url s) = Ok path <->
  temp_file env = Ok path /\
  failed (zip_fetch env) = false /\
  zip_stream env = None.
Proof.
  unfold download_zip, failed, status_ok. unfold_m. simpl.
  destruct (temp_file env) as [name|e]; simpl.
  - destruct (zip_fetch env) as [detail|status b]; simpl.
    + split; [discriminate|intros (_ & H & _); discriminate H].
    + rewrite negb_involutive.
      destruct ((400 <=? status) && (status <? 600)); simpl.
      * split; [discriminate|intros (_ & H & _); discriminate H].
      * destruct (zip_stream env); simpl.
        -- split; [discriminate|intros (_ & _ & H); discriminate H].
        -- split.
           ++ intros H. inversion H. auto.
           ++ intros (H & _). inversion H. reflexivity.
  - split; [discriminate|intros (H & _); discriminate H].
Qed.

(** X7: [download_zip] leaves every existing file in place and creates
    at most one file, the temporary one. *)
Theorem download_zip_files (url : json) (s : State) (q : string) :
  (file_exists q (files s) = true ->
   file_exists q (files (snd (download_zip env url s))) = true) /\
  (file_exists q (files (snd (download_zip env url s))) = true ->
   file_exists q (files s) = true \/ temp_file env = Ok q).
Proof.
  split.
  - intros H.
    destruct (download_zip env url s) as [r s'] eqn:E.
    destruct (download_zip_footprint env url s r s' E)
      as (d & _ & _ & _ & _ & Hk & _).
    simpl. auto.
  - unfold download_zip. unfold_m. simpl.
    destruct (temp_file env) as [name|e]; simpl; [|auto].
    assert (Hnew : file_exists q
                     (if file_exists name (files s) then files s
                      else (files s ++ [name])%list) = true ->
                   file_exists q (files s) = true \/ Ok name = Ok q).
    { destruct (file_exists name (files s)); [auto|].
      rewrite file_exists_app. simpl. rewrite orb_false_r.
      intros H. apply orb_true_iff in H as [H|H]; [auto|].
      apply String.eqb_eq in H. subst. auto. }
    destruct (zip_fetch env) as [detail|status b]; simpl; [exact Hnew|].
    destruct ((400 <=? status) && (status <? 600)); simpl; [exact Hnew|].
    destruct (zip_stream env); simpl; exact Hnew.
Qed.

(** X8: when the temporary file cannot be created, [download_zip]
    raises that error without sending the artifact GET and without
    touching a file. *)
Theorem download_zip_without_temp_file (url : json) (s : State) (e : exn) :
  temp_file env = Raise e ->
  fst (download_zip env url s) = Raise e /\
  files (snd (download_zip env url s)) = files s /\
  events (snd (download_zip env url s))
  = (events s ++ [ Log INFO (DownloadingZip url);
                   Log ERROR (FailedToDownloadZip e) ])%list.
Proof.
  intros H. unfold download_zip. unfold_m. simpl. rewrite H. simpl.
  rewrite <- app_assoc. auto.
Qed.

End Client.

(** ** The upload *)

Lemma sent_app (d1 d2 : list event) :
  sent (d1 ++ d2) = (sent d1 ++ sent d2)%list.
Proof. apply flat_map_app. Qed.

Lemma sleeps_app (d1 d2 : list event) :
  sleeps (d1 ++ d2) = (sleeps d1 ++ sleeps d2)%list.
Proof. apply flat_map_app. Qed.

Section Upload.

Variable cfg : Config.
Variable env : Env.

(** What a returning [upload_to_s3] has read, sent and waited for. *)
Lemma upload_to_s3_ok (path : string) (s : State) (key : json) :
  fst (upload_to_s3 cfg env path s) = Ok key ->
  exists (status : Z) (details u pd : json) (d : list event),
    upload_slot env = Response status (Json details) /\
    Py.getitem details "post_url" = Ok u /\
    Py.getitem details "post_data" = Ok pd /\
    Py.getitem details "file_key" = Ok key /\
    file_exists path (files s) = true /\
    failed (s3_post env) = false /\
    events (snd (upload_to_s3 cfg env path s)) = (events s ++ d)%list /\
    sent d = [slot_request cfg; (POST, u, Some pd)] /\
    sleeps d = [30].
Proof.
  intros H.
  destruct (upload_to_s3 cfg env path s) as [r s'] eqn:E.
  simpl in H. subst r.
  unfold upload_to_s3, api_request, handle_api_error, open_file in E.
  unfold_m. simpl in E.
  repeat case_step; try discriminate E;
    inversion E; subst; clear E; simpl;
    rewrite <- ?app_assoc; simpl.
  all: unfold failed, status_ok.
  all: repeat match goal with
              | Hb : (_ && _) = false |- _ => rewrite Hb; clear Hb
              end.
  all: do 5 eexists; repeat split; try eassumption; try reflexivity.
Qed.

(** X9: when [upload_to_s3] returns a key, the slot request came back
    with a JSON body holding [post_url], [post_data] and [file_key]; the
    local file existed; exactly two requests were sent, the slot request
    and then a POST of [post_data] to [post_url]; the run waited 30
    seconds once; and the key returned is the slot's [file_key]. *)
Theorem upload_to_s3_returns (path : string) (s : State) (key : json) :
  fst (upload_to_s3 cfg env path s) = Ok key ->
  exists (status : Z) (details u pd : json) (d : list event),
    upload_slot env = Response status (Json details) /\
    Py.getitem details "post_url" = Ok u /\
    Py.getitem details "post_data" = Ok pd /\
    Py.getitem details "file_key" = Ok key /\
    file_exists path (files s) = true /\
    failed (s3_post env) = false /\
    events (snd (upload_to_s3 cfg env path s)) = (events s ++ d)%list /\
    sent d = [slot_request cfg; (POST, u, Some pd)] /\
    sleeps d = [30].
Proof. exact (upload_to_s3_ok path s key). Qed.

(** X10: the slot is requested before the local file is opened: when
    the file does not exist and the slot request succeeds with
    [post_url] and [post_data], [upload_to_s3] raises [OSError] having
    sent the slot request and nothing else. *)
Theorem upload_to_s3_missing_file (path : string) (s : State)
    (status : Z) (details u pd : json) :
  file_exists path (files s) = false ->
  upload_slot env = Response status (Json details) ->
  status_ok status = true ->
  Py.getitem details "post_url" = Ok u ->
  Py.getitem details "post_data" = Ok pd ->
  exists (detail : string) (d : list event),
    fst (upload_to_s3 cfg env path s) = Raise (OSError detail) /\
    events (snd (upload_to_s3 cfg env path s)) = (events s ++ d)%list /\
    sent d = [slot_request cfg] /\
    sleeps d = [].
Proof.
  intros Hfile Hslot Hstatus Hu Hpd.
  unfold status_ok in Hstatus. apply negb_true_iff in Hstatus.
  unfold upload_to_s3, api_request, handle_api_error, open_file.
  unfold_m. simpl. rewrite Hslot. simpl. rewrite Hstatus. simpl.
  rewrite Hu, Hpd. simpl. rewrite Hfile. simpl.
  rewrite <- !app_assoc. simpl.
  do 2 eexists. repeat split; reflexivity.
Qed.

(** X11: when the upload-slot request fails, [upload_to_s3] raises
    having sent that one request; no byte goes to the artifact store. *)
Theorem upload_to_s3_slot_failure (path : string) (s : State) :
  failed (upload_slot env) = true ->
  exists (e : exn) (d : list event),
    fst (upload_to_s3 cfg env path s) = Raise e /\
    is_request_exception e = true /\
    events (snd (upload_to_s3 cfg env path s)) = (events s ++ d)%list /\
    sent d = [slot_request cfg] /\
    sleeps d = [].
Proof.
  intros Hf. unfold failed, status_ok in Hf.
  unfold upload_to_s3, api_request, handle_api_error. unfold_m. simpl.
  destruct (upload_slot env) as [detail|status b]; simpl.
  - rewrite <- !app_assoc. simpl.
    do 2 eexists. repeat split; reflexivity.
  - rewrite negb_involutive in Hf. rewrite Hf. simpl.
    destruct b; simpl; destruct (status =? 503); simpl; rewrite ?Hf; simpl;
      rewrite <- !app_assoc; simpl;
      do 2 eexists; repeat split; reflexivity.
Qed.

End Upload.

(** ** The catalog update *)

Section Update.

Variable cfg : Config.
Variable env : Env.

(** X12: a setting the remote configuration does not hold is sent with
    the local default: the configured install type and enforcement, the
    configured visibility, and [True] for the active flag. *)
Theorem update_payload_defaults (file_key : json) (cs : dict) :
  exists p : dict,
    update_payload cfg file_key (JObj cs) = Ok p /\
    (Py.lookup "install_type" cs = None ->
     Py.lookup "install_type" p = Some (JStr (APP_INSTALL_TYPE cfg))) /\
    (Py.lookup "install_enforcement" cs = None ->
     Py.lookup "install_enforcement" p
     = Some (JStr (APP_INSTALL_ENFORCEMENT cfg))) /\
    (Py.lookup "show_in_self_service" cs = None ->
     Py.lookup "show_in_self_service" p
     = Some (JBool (APP_SHOW_IN_SELF_SERVICE cfg))) /\
    (Py.lookup "active" cs = None ->
     Py.lookup "active" p = Some (JBool true)).
Proof.
  destruct (update_payload_dict cfg file_key cs) as (p1 & E & _ & Ho).
  eexists. split; [exact E|].
  assert (Hcat : forall k, k <> "self_service_category_id" ->
            Py.lookup k
              (if Py.truthy (Py.dict_get cs "show_in_self_service"
                               (JBool (APP_SHOW_IN_SELF_SERVICE cfg)))
               then Py.dict_set p1 "self_service_category_id"
                      (Py.or_ (Py.dict_get cs "self_service_category_id" JNull)
                         (category_default cfg))
               else p1)
            = Py.lookup k p1).
  { intros k Hk. destruct (Py.truthy _); [|reflexivity].
    apply lookup_dict_set_other. congruence. }
  repeat split; intros Hnone;
    rewrite Hcat, Ho by (simpl; intuition discriminate);
    simpl; unfold Py.dict_get; rewrite Hnone; reflexivity.
Qed.

(** X13: when the visibility flag of the payload is truthy and the
    remote configuration holds no category, or an empty one, the payload
    carries the locally configured category, and [None] when none is
    configured: the key is sent either way. *)
Theorem category_falls_back_to_local (file_key : json) (cs : dict) :
  Py.truthy (Py.dict_get cs "show_in_self_service"
               (JBool (APP_SHOW_IN_SELF_SERVICE cfg))) = true ->
  Py.truthy (Py.dict_get cs "self_service_category_id" JNull) = false ->
  exists p : dict,
    update_payload cfg file_key (JObj cs) = Ok p /\
    Py.lookup "self_service_category_id" p
    = Some (match APP_SELF_SERVICE_CATEGORY_ID cfg with
            | Some c => JStr c
            | None => JNull
            end).
Proof.
  intros Hshow Hcat.
  destruct (update_payload_dict cfg file_key cs) as (p1 & E & _ & _).
  rewrite Hshow in E.
  eexists. split; [exact E|].
  rewrite lookup_dict_set_same. unfold Py.or_. rewrite Hcat. reflexivity.
Qed.

(** X14: when the settings handed to [update_app] are not a dict,
    [update_app] raises [AttributeError] and sends no request. *)
Theorem update_app_rejects_non_dict (file_key current_settings version : json)
    (s : State) :
  is_dict current_settings = false ->
  exists detail,
    update_app cfg env file_key current_settings version s
    = (Raise (AttributeError detail),
       mkState (events s ++ [Log INFO (UpdatingApp version)])
         (files s) (console_debug s) (zip_path s)).
Proof.
  intros H. unfold update_app, update_payload. unfold_m.
  destruct current_settings; try discriminate H; simpl; eauto.
Qed.

(** What a returning [update_app] sent. *)
Lemma update_app_ok (file_key current_settings version : json) (s : State)
    (res : json) (s' : State) :
  update_app cfg env file_key current_settings version s = (Ok res, s') ->
  exists (payload : dict) (d : list event),
    update_payload cfg file_key current_settings = Ok payload /\
    events s' = (events s ++ d)%list /\
    sent d = [(PATCH,
               JStr (BASE_URL cfg ++ "/v1/library/custom-apps/" ++ APP_ID cfg),
               Some (JObj payload))] /\
    sleeps d = [].
Proof.
  intros H. unfold update_app, api_request, handle_api_error in H.
  unfold_m. simpl in H.
  destruct (update_payload cfg file_key current_settings) as [payload|e];
    simpl in H; [|discriminate H].
  exists payload.
  repeat case_step; try discriminate H;
    inversion H; subst; clear H; simpl; rewrite <- ?app_assoc; simpl;
    eexists; repeat split; reflexivity.
Qed.

Lemma get_manifest_ok (s : State) (found : json * json) (s' : State) :
  get_manifest cfg env s = (Ok found, s') ->
  exists (status : Z) (manifest : json) (d : list event),
    manifest_fetch env = Response status (Json manifest) /\
    status_ok status = true /\
    resolve manifest = Ok found /\
    events s' = (events s ++ d)%list /\
    sent d = [(GET, JStr (MANIFEST_URL cfg), None)] /\
    sleeps d = [].
Proof.
  intros H. unfold get_manifest, status_ok in H. unfold get_manifest, status_ok.
  unfold_m. simpl in H.
  repeat case_step; try discriminate H;
    inversion H; subst; clear H; simpl; rewrite <- ?app_assoc; simpl.
  all: do 3 eexists; repeat split; try eassumption; try reflexivity.
  all: match goal with
       | Hb : (_ && _) = false |- _ => rewrite Hb; reflexivity
       end.
Qed.

Lemma get_app_details_ok (s : State) (details : json) (s' : State) :
  get_app_details cfg env s = (Ok details, s') ->
  exists (status : Z) (b : content) (d : list event),
    details_fetch env = Response status b /\
    status_ok status = true /\
    ((b = Empty /\ details = JNull) \/ b = Json details) /\
    events s' = (events s ++ d)%list /\
    sent d
    = [(GET, JStr (BASE_URL cfg ++ "/v1/library/custom-apps/" ++ APP_ID cfg),
        None)] /\
    sleeps d = [].
Proof.
  intros H.
  assert (Hv : fst (api_request cfg GET
                      ("/v1/library/custom-apps/" ++ APP_ID cfg)
                      (details_fetch env) None
                      (snd (log INFO FetchingDetails s))) = Ok details).
  { unfold get_app_details, bind in H. unfold log, emit in *. simpl in *.
    rewrite H. reflexivity. }
  apply api_request_returns in Hv as (status & b & Hf & Hs & Hb).
  exists status, b.
  unfold get_app_details, api_request, handle_api_error in H.
  unfold_m. simpl in H. rewrite Hf in H. simpl in H.
  unfold status_ok in Hs. apply negb_true_iff in Hs as Hs'.
  rewrite Hs' in H. simpl in H.
  destruct Hb as [[-> ->]| ->]; simpl in H;
    inversion H; subst; clear H; simpl; rewrite <- ?app_assoc; simpl;
    eexists; repeat split; auto; unfold status_ok; rewrite Hs'; reflexivity.
Qed.

Lemma download_zip_ok (url : json) (s : State) (path : string) (s' : State) :
  download_zip env url s = (Ok path, s') ->
  exists d : list event,
    events s' = (events s ++ d)%list /\
    sent d = [(GET, url, None)] /\
    sleeps d = [].
Proof.
  intros H. unfold download_zip in H. unfold_m. simpl in H.
  repeat case_step; try discriminate H;
    inversion H; subst; clear H; simpl; rewrite <- ?app_assoc; simpl;
    eexists; repeat split; reflexivity.
Qed.

Lemma cleanup_sends_nothing (s : State) (r : result unit) (s' : State) :
  cleanup env s = (r, s') ->
  exists d : list event,
    events s' = (events s ++ d)%list /\ sent d = [] /\ sleeps d = [].
Proof.
  intros H. unfold cleanup, unlink, path_set in H. unfold_m. simpl in H.
  repeat case_step; inversion H; subst; clear H; simpl;
    rewrite <- ?app_assoc; simpl;
    eexists; (split; [first [reflexivity | symmetry; apply app_nil_r]|]);
    split; reflexivity.
Qed.

End Update.

(** ** More footprints *)

Section Quiet.

Variable cfg : Config.
Variable env : Env.

Lemma update_app_sent (file_key current_settings version : json) (s : State)
    (r : result json) (s' : State) :
  update_app cfg env file_key current_settings version s = (r, s') ->
  exists d : list event,
    events s' = (events s ++ d)%list /\
    files s' = files s /\
    zip_path s' = zip_path s /\
    (sent d = [] \/
     exists payload,
       sent d
       = [(PATCH,
           JStr (BASE_URL cfg ++ "/v1/library/custom-apps/" ++ APP_ID cfg),
           Some payload)]) /\
    (failed (patch env) = true -> exists e, r = Raise e).
Proof.
  intros H. unfold update_app, api_request, handle_api_error in H.
  unfold_m. simpl in H. unfold failed, status_ok.
  repeat case_step;
    inversion H; subst; clear H; simpl; rewrite <- ?app_assoc; simpl;
    eexists; (split; [reflexivity|]); repeat split; eauto;
    intros; try discriminate; eauto;
    try (right; eexists; reflexivity).
Qed.

Lemma get_manifest_console (s : State) (r : result (json * json))
    (s' : State) :
  get_manifest cfg env s = (r, s') -> console_debug s' = console_debug s.
Proof.
  intros H. unfold get_manifest in H. unfold_m. simpl in H.
  repeat case_step; inversion H; reflexivity.
Qed.

Lemma get_app_details_console (s : State) (r : result json) (s' : State) :
  get_app_details cfg env s = (r, s') -> console_debug s' = console_debug s.
Proof.
  intros H. unfold get_app_details, api_request, handle_api_error in H.
  unfold_m. simpl in H.
  repeat case_step; inversion H; reflexivity.
Qed.

Lemma download_zip_console (url : json) (s : State) (r : result string)
    (s' : State) :
  download_zip env url s = (r, s') -> console_debug s' = console_debug s.
Proof.
  intros H. unfold download_zip in H. unfold_m. simpl in H.
  repeat case_step; inversion H; reflexivity.
Qed.

Lemma upload_to_s3_console (path : string) (s : State) (r : result json)
    (s' : State) :
  upload_to_s3 cfg env path s = (r, s') -> console_debug s' = console_debug s.
Proof.
  intros H.
  unfold upload_to_s3, api_request, handle_api_error, open_file in H.
  unfold_m. simpl in H.
  repeat case_step; inversion H; reflexivity.
Qed.

Lemma update_app_console (file_key current_settings version : json)
    (s : State) (r : result json) (s' : State) :
  update_app cfg env file_key current_settings version s = (r, s') ->
  console_debug s' = console_debug s.
Proof.
  intros H. unfold update_app, api_request, handle_api_error in H.
  unfold_m. simpl in H.
  repeat case_step; inversion H; reflexivity.
Qed.

Lemma cleanup_console (s : State) (r : result unit) (s' : State) :
  cleanup env s = (r, s') ->
  console_debug s' = console_debug s /\ r = Ok tt.
Proof.
  intros H. unfold cleanup, unlink, path_set in H. unfold_m. simpl in H.
  repeat case_step; inversion H; split; try reflexivity;
    match goal with
    | u : unit |- _ => destruct u; reflexivity
    end.
Qed.

(** X20: [get_manifest] logs "Failed to fetch manifest" exactly for the
    exceptions of the [requests] family -- a refused call, an error
    status, a body that is not JSON; an exception of the resolver itself
    propagates without any ERROR record of [get_manifest]. *)
Theorem get_manifest_failure_log (s : State) (e : exn) (s' : State) :
  get_manifest cfg env s = (Raise e, s') ->
  exists d : list event,
    events s' = (events s ++ d)%list /\
    logged_at ERROR d
    = (if is_request_exception e then [FailedToFetchManifest e] else []) /\
    (is_request_exception e = false ->
     exists status manifest,
       manifest_fetch env = Response status (Json manifest) /\
       resolve manifest = Raise e).
Proof.
  intros H. unfold get_manifest in H. unfold_m. simpl in H.
  repeat case_step; try discriminate H;
    inversion H; subst; clear H; simpl; rewrite <- ?app_assoc; simpl;
    try match goal with
        | Hr : resolve _ = Raise ?x, Hq : is_request_exception ?x = true |- _ =>
            rewrite (resolve_raises _ _ Hr) in Hq; discriminate Hq
        end;
    eexists; (split; [reflexivity|]); simpl;
    repeat match goal with
           | Hq : is_request_exception _ = _ |- _ => rewrite Hq
           end;
    split; try reflexivity; intros; try discriminate; eauto.
Qed.

End Quiet.

(** ** Whole runs *)

Lemma requests_sent (d : list event) :
  requests d = map fst (sent d).
Proof.
  induction d as [|e d IH]; [reflexivity|].
  destruct e; simpl; rewrite ?IH; reflexivity.
Qed.

(** Replace each returning stage by what it sent. *)
Ltac successes :=
  repeat match goal with
  | H : get_manifest _ _ _ = (Ok _, _) |- _ =>
      apply get_manifest_ok in H as (? & ? & ? & ? & ? & ? & ? & ? & ?)
  | H : get_app_details _ _ _ = (Ok _, _) |- _ =>
      apply get_app_details_ok in H as (? & ? & ? & ? & ? & ? & ? & ? & ?)
  | H : download_zip _ _ _ = (Ok _, _) |- _ =>
      apply download_zip_ok in H as (? & ? & ? & ?)
  | H : upload_to_s3 ?c ?e ?p ?s = (Ok ?k, ?s') |- _ =>
      let F := fresh "F" in
      assert (F : fst (upload_to_s3 c e p s) = Ok k)
        by (rewrite H; reflexivity);
      apply upload_to_s3_ok in F
        as (? & ? & ? & ? & ? & ? & ? & ? & ? & ? & ? & ? & ? & ?);
      rewrite H in *; clear H
  | H : update_app _ _ _ _ _ _ = (Ok _, _) |- _ =>
      apply update_app_ok in H as (? & ? & ? & ? & ? & ?)
  | H : cleanup _ _ = _ |- _ =>
      apply cleanup_sends_nothing in H as (? & ? & ? & ?)
  end;
  cbn [fst snd events files zip_path console_debug] in *.

(** Rewrite with what is known of what each stage sent. *)
Ltac known_sent :=
  repeat first
    [ rewrite sent_app
    | rewrite sleeps_app
    | match goal with
      | H : sent ?d = _ |- context [sent ?d] => rewrite H
      | H : sleeps ?d = _ |- context [sleeps ?d] => rewrite H
      end
    | progress simpl ].

(** What [get_manifest] returned in a run whose manifest is known. *)
Ltac resolved_manifest Hfetch Hstatus Hres :=
  match goal with
  | Hg : get_manifest ?c ?e ?s0 = (?res, _) |- _ =>
      let X := fresh "X" in
      pose proof (get_manifest_resolves c e s0 _ _ Hfetch Hstatus) as X;
      rewrite Hg in X; cbn [fst] in X; rewrite Hres in X;
      try discriminate X;
      try (inversion X; subst; clear X)
  end.

Section WholeRuns.

Variable cfg : Config.
Variable env : Env.
Variable repr : json -> string.

Lemma summary_text_ok (dry_run : bool) (version url details : json)
    (text : string) :
  summary_text cfg repr dry_run version url details = Ok text ->
  is_dict details = true.
Proof.
  unfold summary_text. destruct details; simpl; try discriminate; auto.
Qed.

(** X15: a real run that returns [True] sent exactly six requests, in
    this order: the manifest GET, the catalog GET, the artifact GET at
    the resolved URL, the upload-slot POST, the POST of the slot's
    [post_data] to the slot's [post_url], and the catalog PATCH whose
    payload is [update_payload] of the slot's [file_key] and of the
    configuration read by the catalog GET; and it waited 30 seconds
    once. *)
Theorem successful_run_trace (debug : bool) (s s' : State) :
  main cfg env repr false debug s = (Ok true, s') ->
  exists (status status' status'' : Z)
         (manifest url version details slot u pd key : json)
         (payload : dict) (d : list event),
    manifest_fetch env = Response status (Json manifest) /\
    resolve manifest = Ok (url, version) /\
    details_fetch env = Response status' (Json details) /\
    upload_slot env = Response status'' (Json slot) /\
    Py.getitem slot "post_url" = Ok u /\
    Py.getitem slot "post_data" = Ok pd /\
    Py.getitem slot "file_key" = Ok key /\
    update_payload cfg key details = Ok payload /\
    events s' = (events s ++ d)%list /\
    sent d
    = [ (GET, JStr (MANIFEST_URL cfg), None);
        (GET, JStr (BASE_URL cfg ++ "/v1/library/custom-apps/" ++ APP_ID cfg),
         None);
        (GET, url, None);
        slot_request cfg;
        (POST, u, Some pd);
        (PATCH, JStr (BASE_URL cfg ++ "/v1/library/custom-apps/" ++ APP_ID cfg),
         Some (JObj payload)) ] /\
    sleeps d = [30].
Proof.
  intros H. walk_main H.
  match goal with
  | Hs : summary_text _ _ _ _ _ _ = Ok _ |- _ =>
      pose proof (summary_text_ok _ _ _ _ _ Hs) as Hdict
  end.
  successes.
  match goal with
  | Hb : (_ = Empty /\ _ = JNull) \/ _ = Json _ |- _ =>
      destruct Hb as [[_ ->]| ->]; [discriminate Hdict|]
  end.
  match goal with
  | Hr : resolve _ = Ok ?a |- _ => destruct a as [url version]
  end.
  cbn [fst snd] in *.
  do 13 eexists.
  do 8 (split; [eassumption|]).
  split; [chain_events; reflexivity|].
  split; known_sent; reflexivity.
Qed.

(** X16: a dry run returns [True] only when the log file of the run
    opened, the manifest was fetched and resolved to a truthy download
    URL, and the catalog read came back as a dict. *)
Theorem dry_run_success_requires (debug : bool) (s : State) :
  fst (main cfg env repr true debug s) = Ok true ->
  log_open env = None /\
  exists (status status' : Z) (manifest url version : json) (details : dict),
    manifest_fetch env = Response status (Json manifest) /\
    status_ok status = true /\
    resolve manifest = Ok (url, version) /\
    Py.truthy url = true /\
    details_fetch env = Response status' (Json (JObj details)) /\
    status_ok status' = true.
Proof.
  destruct (main cfg env repr true debug s) as [r s'] eqn:H.
  cbn [fst]. intros ->. walk_main H.
  split; [reflexivity|].
  match goal with
  | Hs : summary_text _ _ _ _ _ _ = Ok _ |- _ =>
      pose proof (summary_text_ok _ _ _ _ _ Hs) as Hdict
  end.
  successes.
  match goal with
  | Hb : (_ = Empty /\ _ = JNull) \/ _ = Json _ |- _ =>
      destruct Hb as [[_ ->]| ->]; [discriminate Hdict|]
  end.
  match goal with
  | Hr : resolve _ = Ok ?a |- _ => destruct a as [url version]
  end.
  match goal with
  | Hd : is_dict ?a = true |- _ => destruct a; try discriminate Hd
  end.
  cbn [fst snd] in *.
  match goal with
  | Hb : negb (Py.truthy _) = false |- _ => apply negb_false_iff in Hb
  end.
  do 6 eexists. repeat split; eassumption.
Qed.

(** X17: when the catalog read does not come back as a dict -- the
    request fails, or the body is empty or some other JSON value -- the
    run, its log file open, fails without creating a file and without
    any request beyond the manifest GET and the catalog GET. *)
Theorem catalog_read_failure_stops_run (dry_run debug : bool) (s : State) :
  log_open env = None ->
  (forall s0 details, fst (get_app_details cfg env s0) <> Ok (JObj details)) ->
  exists (s' : State) (d : list event),
    main cfg env repr dry_run debug s = (Ok false, s') /\
    events s' = (events s ++ d)%list /\
    files s' = files s /\
    (requests d = [(GET, JStr (MANIFEST_URL cfg))] \/
     requests d
     = [(GET, JStr (MANIFEST_URL cfg));
        (GET, JStr (BASE_URL cfg ++ "/v1/library/custom-apps/" ++ APP_ID cfg))]).
Proof.
  intros Hopen Hnot.
  destruct (main cfg env repr dry_run debug s) as [r s'] eqn:H.
  walk_main H; log_opened;
    try match goal with
        | Hs : summary_text _ _ _ _ _ ?a = Ok _,
          Hg : get_app_details cfg env ?s0 = (Ok ?a, _) |- _ =>
            pose proof (summary_text_ok _ _ _ _ _ Hs) as Hdict;
            destruct a; try discriminate Hdict;
            exfalso; eapply (Hnot s0); rewrite Hg; reflexivity
        end;
    footprints; idle_cleanup;
    do 2 eexists; (split; [reflexivity|]);
    chain_events; (split; [reflexivity|]);
    (split; [congruence|]);
    known_traces; auto.
Qed.

(** X18: a real run, its log file open, whose catalog PATCH fails
    returns [False]; and when
    the PATCH was sent at all, the artifact had already gone through
    both POSTs of the upload: the requests of the run are, by method,
    GET, GET, GET, POST, POST, PATCH. *)
Theorem failed_patch_after_upload (debug : bool) (s : State) :
  log_open env = None ->
  failed (patch env) = true ->
  exists (s' : State) (d : list event),
    main cfg env repr false debug s = (Ok false, s') /\
    events s' = (events s ++ d)%list /\
    (In PATCH (map fst (requests d)) ->
     map fst (requests d) = [GET; GET; GET; POST; POST; PATCH]).
Proof.
  intros Hopen Hp.
  destruct (main cfg env repr false debug s) as [r s'] eqn:H.
  walk_main H; log_opened.
  all: try match goal with
           | Hu : update_app _ _ _ _ _ _ = (Ok _, _) |- _ =>
               apply update_app_sent in Hu as (? & _ & _ & _ & _ & Hf);
               destruct (Hf Hp) as [? Habs]; discriminate Habs
           end.
  all: first
    [ match goal with
      | Hu : update_app _ _ _ _ _ _ = (Raise _, _) |- _ =>
          apply update_app_sent in Hu as (? & ? & _ & _ & Hsent & _)
      end;
      successes;
      do 2 eexists; (split; [reflexivity|]);
      chain_events; (split; [reflexivity|]);
      rewrite requests_sent;
      destruct Hsent as [Hsent|[payload Hsent]];
      known_sent; unfold slot_request; simpl;
      [ intuition discriminate | reflexivity ]
    | footprints;
      do 2 eexists; (split; [reflexivity|]);
      chain_events; (split; [reflexivity|]);
      repeat match goal with
             | Hd : _ \/ _ |- _ => destruct Hd
             end;
      known_traces; intros Hin;
      repeat (rewrite ?map_app, ?in_app_iff in Hin; simpl in Hin);
      exfalso; intuition discriminate ].
Qed.

Lemma main_returns (dry_run debug : bool) (s : State) :
  log_open env = None ->
  exists (b : bool) (s' : State),
    main cfg env repr dry_run debug s = (Ok b, s') /\
    console_debug s' = debug.
Proof.
  intros Hopen.
  destruct (main cfg env repr dry_run debug s) as [r s'] eqn:H.
  walk_main H; log_opened;
    repeat match goal with
    | Hc : get_manifest _ _ _ = _ |- _ => apply get_manifest_console in Hc
    | Hc : get_app_details _ _ _ = _ |- _ =>
        apply get_app_details_console in Hc
    | Hc : download_zip _ _ _ = _ |- _ => apply download_zip_console in Hc
    | Hc : upload_to_s3 _ _ _ _ = _ |- _ => apply upload_to_s3_console in Hc
    | Hc : update_app _ _ _ _ _ _ = _ |- _ => apply update_app_console in Hc
    | Hc : cleanup _ _ = _ |- _ => apply cleanup_console in Hc as [? ?]
    end;
    cbn [fst snd events files zip_path console_debug] in *;
    try discriminate;
    do 2 eexists; (split; [reflexivity|]); congruence.
Qed.

Lemma main_opens_log (dry_run debug : bool) (s : State) :
  log_open env = None ->
  exists (d : list event),
    events (snd (main cfg env repr dry_run debug s))
    = (events s ++ OpenLog (log_filename cfg env) :: d)%list.
Proof.
  intros Hopen.
  destruct (main cfg env repr dry_run debug s) as [r s'] eqn:H.
  walk_main H; log_opened; footprints;
    eexists; chain_events; reflexivity.
Qed.

(** X22: [logging.FileHandler] is called before the [try] block of
    [main]: when the log file cannot be opened, its exception leaves
    [main], with nothing logged and nothing sent.  In every other run
    [main] returns a boolean -- each exception of the pipeline is
    caught -- the log file, named after the application and the start
    time, is opened first, and the console handler is at the level the
    [debug] flag asks for. *)
Theorem main_returns_unless_logging_fails (dry_run debug : bool) (s : State) :
  match log_open env with
  | Some e => main cfg env repr dry_run debug s = (Raise e, s)
  | None =>
      exists (b : bool) (s' : State) (d : list event),
        main cfg env repr dry_run debug s = (Ok b, s') /\
        events s' = (events s ++ OpenLog (log_filename cfg env) :: d)%list /\
        console_debug s' = debug
  end.
Proof.
  destruct (log_open env) as [e|] eqn:Hopen.
  - unfold main, setup_logging. unfold_m. rewrite Hopen. reflexivity.
  - destruct (main_returns dry_run debug s Hopen) as (b & s' & Hm & Hc).
    destruct (main_opens_log dry_run debug s Hopen) as [d Hd].
    rewrite Hm in Hd. cbn [snd] in Hd.
    exists b, s', d. auto.
Qed.

End WholeRuns.

(** ** The further properties on the sample runs *)

Lemma service_unavailable_sample :
  HTTPError 503
  = (if status_ok 503 then JSONDecodeError else HTTPError 503) /\
  exists dbg msg,
    events (snd (api_request Sample.cfg PATCH "/v1/library/custom-apps/app-123"
                   (Response 503 NotJson) None (initial [])))
    = (events (initial [])
       ++ [ Request PATCH
              (JStr (BASE_URL Sample.cfg ++ "/v1/library/custom-apps/app-123"))
              None;
            Log DEBUG dbg;
            Log (if 503 =? 503 then WARNING else ERROR) msg ])%list.
Proof.
  apply (api_request_failure_log Sample.cfg PATCH
           "/v1/library/custom-apps/app-123" 503 NotJson None (initial [])).
  reflexivity.
Defined.

Lemma no_temp_file_sample :
  fst (download_zip Sample.no_temp_env (JStr "https://x/new.zip") (initial []))
  = Raise (OSError "No space left on device") /\
  files (snd (download_zip Sample.no_temp_env (JStr "https://x/new.zip")
                (initial [])))
  = files (initial []) /\
  events (snd (download_zip Sample.no_temp_env (JStr "https://x/new.zip")
                 (initial [])))
  = (events (initial [])
     ++ [ Log INFO (DownloadingZip (JStr "https://x/new.zip"));
          Log ERROR (FailedToDownloadZip (OSError "No space left on device")) ])%list.
Proof.
  apply (download_zip_without_temp_file Sample.no_temp_env).
  reflexivity.
Defined.

Lemma upload_sample :
  exists (status : Z) (details u pd : json) (d : list event),
    upload_slot Sample.env = Response status (Json details) /\
    Py.getitem details "post_url" = Ok u /\
    Py.getitem details "post_data" = Ok pd /\
    Py.getitem details "file_key" = Ok (JStr "token-1") /\
    file_exists "/tmp/tmpabc.zip" (files (initial ["/tmp/tmpabc.zip"])) = true /\
    failed (s3_post Sample.env) = false /\
    events (snd (upload_to_s3 Sample.cfg Sample.env "/tmp/tmpabc.zip"
                   (initial ["/tmp/tmpabc.zip"])))
    = (events (initial ["/tmp/tmpabc.zip"]) ++ d)%list /\
    sent d = [slot_request Sample.cfg; (POST, u, Some pd)] /\
    sleeps d = [30].
Proof.
  apply (upload_to_s3_returns Sample.cfg Sample.env "/tmp/tmpabc.zip"
           (initial ["/tmp/tmpabc.zip"]) (JStr "token-1")).
  reflexivity.
Defined.

Lemma upload_missing_file_sample :
  exists (detail : string) (d : list event),
    fst (upload_to_s3 Sample.cfg Sample.env "/tmp/gone.zip" (initial []))
    = Raise (OSError detail) /\
    events (snd (upload_to_s3 Sample.cfg Sample.env "/tmp/gone.zip"
                   (initial [])))
    = (events (initial []) ++ d)%list /\
    sent d = [slot_request Sample.cfg] /\
    sleeps d = [].
Proof.
  apply (upload_to_s3_missing_file Sample.cfg Sample.env "/tmp/gone.zip"
           (initial []) 200 Sample.slot
           (JStr "https://s3/bucket") (JObj [("key", JStr "k")]));
    reflexivity.
Defined.

Lemma upload_slot_failure_sample :
  exists (e : exn) (d : list event),
    fst (upload_to_s3 Sample.cfg Sample.slot_failure_env "/tmp/tmpabc.zip"
           (initial ["/tmp/tmpabc.zip"]))
    = Raise e /\
    is_request_exception e = true /\
    events (snd (upload_to_s3 Sample.cfg Sample.slot_failure_env
                   "/tmp/tmpabc.zip" (initial ["/tmp/tmpabc.zip"])))
    = (events (initial ["/tmp/tmpabc.zip"]) ++ d)%list /\
    sent d = [slot_request Sample.cfg] /\
    sleeps d = [].
Proof.
  apply (upload_to_s3_slot_failure Sample.cfg Sample.slot_failure_env).
  reflexivity.
Defined.

Lemma category_fallback_sample :
  exists p : dict,
    update_payload Sample.cfg (JStr "token-1")
      (JObj [("show_in_self_service", JBool true)])
    = Ok p /\
    Py.lookup "self_service_category_id" p = Some (JStr "local-cat").
Proof.
  apply (category_falls_back_to_local Sample.cfg (JStr "token-1")
           [("show_in_self_service", JBool true)]);
    reflexivity.
Defined.

Lemma update_app_none_sample :
  exists detail,
    update_app Sample.cfg Sample.env (JStr "token-1") JNull (JStr "2.1.0")
      (initial [])
    = (Raise (AttributeError detail),
       mkState (events (initial [])
                ++ [Log INFO (UpdatingApp (JStr "2.1.0"))])
         (files (initial [])) (console_debug (initial []))
         (zip_path (initial []))).
Proof.
  apply (update_app_rejects_non_dict Sample.cfg Sample.env).
  reflexivity.
Defined.

Lemma successful_run_sample :
  exists (status status' status'' : Z)
         (manifest url version details slot u pd key : json)
         (payload : dict) (d : list event),
    manifest_fetch Sample.env = Response status (Json manifest) /\
    resolve manifest = Ok (url, version) /\
    details_fetch Sample.env = Response status' (Json details) /\
    upload_slot Sample.env = Response status'' (Json slot) /\
    Py.getitem slot "post_url" = Ok u /\
    Py.getitem slot "post_data" = Ok pd /\
    Py.getitem slot "file_key" = Ok key /\
    update_payload Sample.cfg key details = Ok payload /\
    events (snd (main Sample.cfg Sample.env Sample.repr false false
                   (initial [])))
    = (events (initial []) ++ d)%list /\
    sent d
    = [ (GET, JStr (MANIFEST_URL Sample.cfg), None);
        (GET, JStr (BASE_URL Sample.cfg ++ "/v1/library/custom-apps/"
                    ++ APP_ID Sample.cfg), None);
        (GET, url, None);
        slot_request Sample.cfg;
        (POST, u, Some pd);
        (PATCH, JStr (BASE_URL Sample.cfg ++ "/v1/library/custom-apps/"
                      ++ APP_ID Sample.cfg),
         Some (JObj payload)) ] /\
    sleeps d = [30].
Proof.
  apply (successful_run_trace Sample.cfg Sample.env Sample.repr false
           (initial [])).
  vm_compute. reflexivity.
Defined.

Lemma empty_catalog_body_sample :
  exists (s' : State) (d : list event),
    main Sample.cfg Sample.empty_details_env Sample.repr false false
      (initial [])
    = (Ok false, s') /\
    events s' = (events (initial []) ++ d)%list /\
    files s' = files (initial []) /\
    (requests d = [(GET, JStr (MANIFEST_URL Sample.cfg))] \/
     requests d
     = [(GET, JStr (MANIFEST_URL Sample.cfg));
        (GET, JStr (BASE_URL Sample.cfg ++ "/v1/library/custom-apps/"
                    ++ APP_ID Sample.cfg))]).
Proof.
  apply (catalog_read_failure_stops_run Sample.cfg Sample.empty_details_env
           Sample.repr false false (initial []));
    [reflexivity|].
  intros s0 details H. vm_compute in H. discriminate H.
Defined.

Lemma failed_patch_sample :
  exists (s' : State) (d : list event),
    main Sample.cfg Sample.patch_failure_env Sample.repr false false
      (initial [])
    = (Ok false, s') /\
    events s' = (events (initial []) ++ d)%list /\
    (In PATCH (map fst (requests d)) ->
     map fst (requests d) = [GET; GET; GET; POST; POST; PATCH]).
Proof.
  apply (failed_patch_after_upload Sample.cfg Sample.patch_failure_env
           Sample.repr false (initial []));
    reflexivity.
Defined.

Lemma offline_manifest_sample :
  exists d : list event,
    events (snd (get_manifest Sample.cfg Sample.offline_env (initial [])))
    = (events (initial []) ++ d)%list /\
    logged_at ERROR d
    = (if is_request_exception (TransportError "connection refused")
       then [FailedToFetchManifest (TransportError "connection refused")]
       else []) /\
    (is_request_exception (TransportError "connection refused") = false ->
     exists status manifest,
       manifest_fetch Sample.offline_env = Response status (Json manifest) /\
       resolve manifest = Raise (TransportError "connection refused")).
Proof.
  apply (get_manifest_failure_log Sample.cfg Sample.offline_env (initial [])
           (TransportError "connection refused")).
  reflexivity.
Defined.

(** The dry run of the sample environment returns [True]. *)
Lemma dry_run_sample :
  log_open Sample.env = None /\
  exists (status status' : Z) (manifest url version : json) (details : dict),
    manifest_fetch Sample.env = Response status (Json manifest) /\
    status_ok status = true /\
    resolve manifest = Ok (url, version) /\
    Py.truthy url = true /\
    details_fetch Sample.env = Response status' (Json (JObj details)) /\
    status_ok status' = true.
Proof.
  apply (dry_run_success_requires Sample.cfg Sample.env Sample.repr false
           (initial [])).
  vm_compute. reflexivity.
Defined.

(** The log file cannot be created: the error leaves [main]. *)
Lemma unwritable_log_sample :
  main Sample.cfg Sample.unwritable_log_env Sample.repr true true (initial [])
  = (Raise (OSError "No such file or directory"), initial []).
Proof.
  exact (main_returns_unless_logging_fails Sample.cfg
           Sample.unwritable_log_env Sample.repr true true (initial [])).
Defined.
